(** * Almas chat backend: session store, mode policy and turn orchestration

    A shallow embedding of [backend/server.js] and the properties of its
    data layer, mode detection, context construction and [POST /api/chat]
    handler.

    Modelling conventions.
    - JavaScript strings are [string]s.  [toLowerCase] folds the ASCII
      letters and leaves every other character alone; it is JavaScript's
      [toLowerCase] on text made of ASCII characters, and what is proved
      of case folding for every text is stated for such text.
    - [handleTurn] is the [POST /api/chat] handler for body fields that
      are strings or absent; [postChat] is the handler for fields that
      are any JSON value, and agrees with it on strings.
    - A plain JavaScript object used as a dictionary is the list of its own
      properties in insertion order, together with what a property read
      finds on [Object.prototype] when the key is not an own property.
    - The data file is [option Doc]: [None] while [chats.json] does not
      exist.  File operations other than [fs.access] on a missing file are
      taken to succeed, and the file always holds a well-formed document.
    - The provider is a function from the request to what [fetch] and the
      reading of the response body produce.
    - An [async] route handler either sends a response or throws; nothing
      in the program catches what a handler throws. *)

From Stdlib Require Import List String Ascii ZArith QArith Bool Arith Lia.
From Stdlib Require Import Sorted Permutation.
Import ListNotations.

Close Scope Q_scope.
Open Scope string_scope.

(** ** JavaScript primitives used by the server *)

Module JS.

(** [String.prototype.toLowerCase] for text of ASCII characters: the
    letters A to Z become a to z.  (JavaScript also lowers letters
    outside ASCII, which are left alone here.) *)
Definition lower_ascii (c : ascii) : ascii :=
  let n := nat_of_ascii c in
  if (65 <=? n)%nat && (n <=? 90)%nat then ascii_of_nat (n + 32) else c.

Fixpoint toLowerCase (s : string) : string :=
  match s with
  | EmptyString => EmptyString
  | String c s' => String (lower_ascii c) (toLowerCase s')
  end.

(** [s.startsWith(pat)]. *)
Fixpoint startsWith (s pat : string) {struct pat} : bool :=
  match pat, s with
  | EmptyString, _ => true
  | String _ _, EmptyString => false
  | String p pat', String c s' => Ascii.eqb c p && startsWith s' pat'
  end.

(** [s.includes(pat)]: [pat] occurs at some position of [s]. *)
Fixpoint includes (s pat : string) : bool :=
  startsWith s pat ||
  match s with
  | EmptyString => false
  | String _ s' => includes s' pat
  end.

(** Truthiness of a string, and of a value that is [null] or a string. *)
Definition truthy (s : string) : bool := negb (s =? "").

Definition truthy_opt (v : option string) : bool :=
  match v with
  | Some s => truthy s
  | None => false
  end.

(** [a || b] where [a] is [null] or a string; [b] is evaluated only when
    [a] is falsy. *)
Definition or_else (a : option string) (b : unit -> string) : string :=
  match a with
  | Some s => if truthy s then s else b tt
  | None => b tt
  end.

(** [arr.slice(-n)]: the last [n] elements, all of them when there are
    fewer. *)
Definition slice_last {A : Type} (n : nat) (arr : list A) : list A :=
  skipn (List.length arr - n) arr.

(** [arr.push(x)]. *)
Definition push {A : Type} (arr : list A) (x : A) : list A :=
  (arr ++ [x])%list.

(** The names a property read finds on [Object.prototype]. *)
Definition ObjectPrototype : list string :=
  [ "constructor"; "__defineGetter__"; "__defineSetter__"; "hasOwnProperty";
    "__lookupGetter__"; "__lookupSetter__"; "isPrototypeOf";
    "propertyIsEnumerable"; "toString"; "valueOf"; "__proto__";
    "toLocaleString" ].

Definition inherited (k : string) : bool :=
  existsb (String.eqb k) ObjectPrototype.

(** What [obj[k]] evaluates to. *)
Inductive Value (A : Type) : Type :=
| Own (a : A)      (* an own property of the object *)
| Inherited        (* a member of Object.prototype: truthy, none of the
                      fields the program reads *)
| Undefined.

Arguments Own {A} a.
Arguments Inherited {A}.
Arguments Undefined {A}.

(** An ordinary object: its own enumerable properties, oldest first.
    (Keys that are array indices would be enumerated before the others;
    the ids the server creates are UUIDs.) *)
Definition Obj (A : Type) : Type := list (string * A).

Fixpoint own {A : Type} (o : Obj A) (k : string) : option A :=
  match o with
  | [] => None
  | (k', v) :: o' => if k' =? k then Some v else own o' k
  end.

Definition get {A : Type} (o : Obj A) (k : string) : Value A :=
  match own o k with
  | Some v => Own v
  | None => if inherited k then Inherited else Undefined
  end.

Fixpoint replace {A : Type} (o : Obj A) (k : string) (v : A) : Obj A :=
  match o with
  | [] => []
  | (k', v') :: o' =>
      if k' =? k then (k', v) :: o' else (k', v') :: replace o' k v
  end.

(** [obj[k] = v].  An own property keeps its place; a new one goes last.
    Assigning to ["__proto__"] when it is not an own property calls the
    setter of [Object.prototype] and creates no property. *)
Definition set {A : Type} (o : Obj A) (k : string) (v : A) : Obj A :=
  match own o k with
  | Some _ => replace o k v
  | None => if k =? "__proto__" then o else (o ++ [(k, v)])%list
  end.

(** [delete obj[k]]: the own property [k], if any, is gone afterwards. *)
Definition delete {A : Type} (o : Obj A) (k : string) : Obj A :=
  filter (fun kv => negb (fst kv =? k)) o.

(** [Object.keys(obj)]. *)
Definition keys {A : Type} (o : Obj A) : list string := map fst o.

End JS.

(** ** Data model *)

Record Message : Type := mkMessage {
  role : string;
  content : string
}.

Record Session : Type := mkSession {
  title : string;
  createdAt : Z;
  messages : list Message;
  memory : string;
  forcedMode : option string     (* [None] is [null] *)
}.

(** The parsed content of [chats.json]: session id to session. *)
Definition Doc : Type := JS.Obj Session.

(** The data file; [None] when it does not exist. *)
Definition File : Type := option Doc.

(** The mapping a reader of the data file obtains. *)
Definition stored (f : File) : Doc :=
  match f with
  | Some d => d
  | None => []
  end.

(** ** A small monad for code that uses the data file and may throw *)

Inductive Error : Type :=
| TypeError.

Inductive Result (A : Type) : Type :=
| Ret (a : A)
| Throw (e : Error).

Arguments Ret {A} a.
Arguments Throw {A} e.

Definition M (A : Type) : Type := File -> Result A * File.

Definition ret {A : Type} (a : A) : M A := fun f => (Ret a, f).

Definition throw {A : Type} (e : Error) : M A := fun f => (Throw e, f).

Definition bind {A B : Type} (m : M A) (k : A -> M B) : M B :=
  fun f =>
    match m f with
    | (Ret a, f') => k a f'
    | (Throw e, f') => (Throw e, f')
    end.

Notation "x <- m ;; k" := (bind m (fun x => k))
  (at level 61, m at next level, right associativity).
Notation "m ;;; k" := (bind m (fun _ => k))
  (at level 61, right associativity).

(** ** Data layer *)

(** [fs.access(DATA_FILE)] succeeds exactly when the file exists. *)
Definition fs_access : M bool := fun f =>
  (Ret (match f with Some _ => true | None => false end), f).

(** [fs.writeFile(DATA_FILE, JSON.stringify(d, null, 2))]. *)
Definition fs_writeFile (d : Doc) : M unit := fun _ => (Ret tt, Some d).

(** [JSON.parse(await fs.readFile(DATA_FILE, "utf8"))]. *)
Definition fs_readFile : M Doc := fun f => (Ret (stored f), f).

Definition ensureDataFile : M unit :=
  ok <- fs_access ;;
  if ok then ret tt else fs_writeFile [].

Definition readData : M Doc :=
  ensureDataFile ;;; fs_readFile.

Definition writeData (data : Doc) : M unit := fs_writeFile data.

(** [data[chatId] || null]; [Undefined] stands for the [null] returned. *)
Definition getChat (chatId : string) : M (JS.Value Session) :=
  data <- readData ;;
  ret (JS.get data chatId).

Definition saveChat (chatId : string) (chatData : Session) : M unit :=
  data <- readData ;;
  writeData (JS.set data chatId chatData).

Definition deleteChat (chatId : string) : M bool :=
  data <- readData ;;
  match JS.get data chatId with
  | JS.Undefined => ret false
  | _ => writeData (JS.delete data chatId) ;;; ret true
  end.

Definition greeting : Message :=
  mkMessage "assistant" "Hey 👋 I’m Almas. How can I help you today?".

(** [createChat], given what [crypto.randomUUID()] and [Date.now()]
    return. *)
Definition createChat (uuid : string) (now : Z) : M string :=
  data <- readData ;;
  writeData
    (JS.set data uuid (mkSession "New Chat" now [greeting] "" None)) ;;;
  ret uuid.

(** ** Modes *)

Record Profile : Type := mkProfile {
  temperature : Q;
  max_tokens : Z;
  systemPrompt : string
}.

Definition MODES : JS.Obj Profile :=
  [ ("chat",
     mkProfile (8 # 10) 500
       "You are Almas, a friendly AI created by Hussain. Be natural and conversational.");
    ("technical",
     mkProfile (2 # 10) 2000
       "You are Almas, a senior software engineer. Give optimized, correct answers with code blocks.");
    ("concise",
     mkProfile (5 # 10) 150
       "You are Almas. Give very short and clear answers.");
    ("exam",
     mkProfile (3 # 10) 1200
       "You are Almas. Answer in structured exam format with headings and bullet points.") ].

(** ** Mode detection *)

Definition techKeywords : list string :=
  [ "code"; "bug"; "error"; "algorithm"; "function";
    "javascript"; "node"; "react"; "express"; "api";
    "database"; "sql"; "c++"; "java"; "python" ].

Definition detectMode (message : string) : string :=
  let lower := JS.toLowerCase message in
  if existsb (fun word => JS.includes lower word) techKeywords then
    "technical"
  else if JS.includes lower "short answer" then
    "concise"
  else if JS.includes lower "exam" || JS.includes lower "define" then
    "exam"
  else
    "chat".

(** ** The provider call *)

(** The body sent to the provider.  A field whose value is [undefined] is
    left out by [JSON.stringify]: [None]. *)
Record Request : Type := mkRequest {
  req_model : string;
  req_messages : list Message;
  req_temperature : option Q;
  req_max_tokens : option Z
}.

(** The part of a parsed response body that [callGroq] reads. *)
Record ChoiceMessage : Type := mkChoiceMessage {
  cm_content : option string
}.

Record Choice : Type := mkChoice {
  c_message : option ChoiceMessage
}.

Record Completion : Type := mkCompletion {
  choices : option (list (option Choice))
}.

(** What [fetch] and the reading of the body come to. *)
Inductive FetchOutcome : Type :=
| FetchRejected                 (* fetch throws: no response at all *)
| NotOk (statusText : string)   (* a response whose [ok] is false *)
| BodyRejected                  (* [response.json()] throws *)
| BodyNull                      (* the body is [null]: [data.choices] throws *)
| Body (data : Completion).

Definition Provider : Type := Request -> FetchOutcome.

Definition fallbackReply : string :=
  "⚠️ I'm having trouble connecting right now.".

(** [config.f]: [undefined] on a member of [Object.prototype]. *)
Definition field {A B : Type} (f : A -> B) (config : JS.Value A) : option B :=
  match config with
  | JS.Own p => Some (f p)
  | _ => None
  end.

(** [data.choices?.[0]?.message?.content]. *)
Definition generated (data : Completion) : option string :=
  match choices data with
  | Some (Some c :: _) =>
      match c_message c with
      | Some m => cm_content m
      | None => None
      end
  | _ => None
  end.

(** The path through [callGroq] ends in its [catch] block. *)
Definition caught (o : FetchOutcome) : bool :=
  match o with
  | Body _ => false
  | _ => true
  end.

(** The request is built inside the [try] block, so reading
    [config.temperature] from [undefined] is caught as well. *)
Definition callGroq (provider : Provider) (msgs : list Message)
    (config : JS.Value Profile) : string :=
  match config with
  | JS.Undefined => fallbackReply
  | _ =>
      match
        provider
          (mkRequest "llama-3.3-70b-versatile" msgs
             (field temperature config) (field max_tokens config))
      with
      | Body data => JS.or_else (generated data) (fun _ => "")
      | _ => fallbackReply
      end
  end.

(** ** Routes *)

Inductive Response : Type :=
| Status400                          (* { error: "Invalid request" } *)
| Status404                          (* { error: "Chat not found" } *)
| ReplyJson (reply modeUsed : string)
| SuccessJson                        (* { success: true } *)
| ChatIdJson (chatId : string)
| ListJson (list : list (string * string * Z)).

Definition lift {A : Type} (r : Result A) : M A := fun f => (r, f).

Definition newline : string := String "010"%char "".

Definition with_messages (chat : Session) (ms : list Message) : Session :=
  mkSession (title chat) (createdAt chat) ms (memory chat) (forcedMode chat).

Definition with_memory (chat : Session) (m : string) : Session :=
  mkSession (title chat) (createdAt chat) (messages chat) m (forcedMode chat).

(** [chat.forcedMode || detectMode(message)]. *)
Definition selectMode (chat : Session) (message : string) : string :=
  JS.or_else (forcedMode chat) (fun _ => detectMode message).

(** The system message; reading [config.systemPrompt] throws when
    [config] is [undefined]. *)
Definition systemMessage (config : JS.Value Profile) (chat : Session)
  : Result Message :=
  match config with
  | JS.Undefined => Throw TypeError
  | _ =>
      Ret (mkMessage "system"
             (match field systemPrompt config with
              | Some p => p
              | None => "undefined"
              end
              ++ newline ++ "User Memory:" ++ newline
              ++ JS.or_else (Some (memory chat)) (fun _ => "None")))
  end.

(** What is sent to the provider: the system message, then
    [chat.messages.slice(-12)]. *)
Definition context (sys : Message) (chat : Session) : list Message :=
  sys :: JS.slice_last 12 (messages chat).

(** [POST /api/chat] with body fields [chatId] and [message] that are
    strings ([None] when a field is missing or [null]); for fields of
    any JSON value see [postChat]. *)
Definition handleTurn (provider : Provider) (chatId message : option string)
  : M Response :=
  match chatId, message with
  | Some chatId, Some message =>
      if negb (JS.truthy chatId) || negb (JS.truthy message) then
        ret Status400
      else
        chat <- getChat chatId ;;
        match chat with
        | JS.Undefined => ret Status404
        | JS.Inherited => throw TypeError   (* [chat.messages] is undefined *)
        | JS.Own chat =>
            let chat :=
              with_messages chat
                (JS.push (messages chat) (mkMessage "user" message)) in
            let selectedMode := selectMode chat message in
            let config := JS.get MODES selectedMode in
            sys <- lift (systemMessage config chat) ;;
            let aiReply := callGroq provider (context sys chat) config in
            let chat :=
              with_messages chat
                (JS.push (messages chat) (mkMessage "assistant" aiReply)) in
            let chat := with_memory chat message in
            saveChat chatId chat ;;;
            ret (ReplyJson aiReply selectedMode)
        end
  | _, _ => ret Status400
  end.

(** [DELETE /api/chat/:chatId]. *)
Definition handleDelete (chatId : string) : M Response :=
  success <- deleteChat chatId ;;
  if success then ret SuccessJson else ret Status404.

(** [POST /api/new-chat]. *)
Definition handleNewChat (uuid : string) (now : Z) : M Response :=
  chatId <- createChat uuid now ;;
  ret (ChatIdJson chatId).

(** [arr.sort(cmp)]: stable; [a] stays before [b] unless [cmp a b > 0]. *)
Fixpoint sort_insert {A : Type} (cmp : A -> A -> Z) (x : A) (l : list A)
  : list A :=
  match l with
  | [] => [x]
  | y :: l' =>
      if (cmp x y >? 0)%Z then y :: sort_insert cmp x l' else x :: y :: l'
  end.

Definition sort {A : Type} (cmp : A -> A -> Z) (l : list A) : list A :=
  fold_right (sort_insert cmp) [] l.

(** The summaries of [GET /api/chats]: [chatId], [title], [createdAt] of
    every session, newest first. *)
Definition summaries (data : Doc) : list (string * string * Z) :=
  sort (fun a b => (snd b - snd a)%Z)
    (map (fun kv => (fst kv, title (snd kv), createdAt (snd kv))) data).

(** [GET /api/chats]. *)
Definition handleList : M Response :=
  data <- readData ;;
  ret (ListJson (summaries data)).

(** ** Interleaved turns

    A request handler runs until its next [await] and is resumed when the
    awaited operation completes; between two resumptions any other handler
    may run.  A turn in flight is therefore the operation it is waiting
    for, together with the local variables that are live across it; one
    step performs that operation and runs the handler up to its next
    [await]. *)

Inductive Thread : Type :=
(* getChat / readData / ensureDataFile: awaiting [fs.access] *)
| GetAccess (chatId message : string)
(* ensureDataFile: awaiting [fs.writeFile] of the empty document *)
| GetInit (chatId message : string)
(* readData: awaiting [fs.readFile] *)
| GetRead (chatId message : string)
(* callGroq: awaiting [fetch] and the response body *)
| Generate (chatId message : string) (chat : Session)
    (selectedMode : string) (config : JS.Value Profile) (sys : Message)
(* saveChat / readData / ensureDataFile: awaiting [fs.access] *)
| SaveAccess (chatId : string) (chat : Session) (aiReply selectedMode : string)
| SaveInit (chatId : string) (chat : Session) (aiReply selectedMode : string)
(* saveChat / readData: awaiting [fs.readFile] *)
| SaveRead (chatId : string) (chat : Session) (aiReply selectedMode : string)
(* writeData: awaiting [fs.writeFile] of the updated document *)
| SaveWrite (data : Doc) (aiReply selectedMode : string)
(* the handler has responded or thrown *)
| Done (r : Result Response).

(** The handler up to its first [await]. *)
Definition spawn (chatId message : option string) : Thread :=
  match chatId, message with
  | Some chatId, Some message =>
      if negb (JS.truthy chatId) || negb (JS.truthy message) then
        Done (Ret Status400)
      else GetAccess chatId message
  | _, _ => Done (Ret Status400)
  end.

Definition step (provider : Provider) (t : Thread) (f : File)
  : Thread * File :=
  match t with
  | GetAccess chatId message =>
      match f with
      | Some _ => (GetRead chatId message, f)
      | None => (GetInit chatId message, f)
      end
  | GetInit chatId message => (GetRead chatId message, Some [])
  | GetRead chatId message =>
      match JS.get (stored f) chatId with
      | JS.Undefined => (Done (Ret Status404), f)
      | JS.Inherited => (Done (Throw TypeError), f)
      | JS.Own chat =>
          let chat :=
            with_messages chat
              (JS.push (messages chat) (mkMessage "user" message)) in
          let selectedMode := selectMode chat message in
          let config := JS.get MODES selectedMode in
          match systemMessage config chat with
          | Throw e => (Done (Throw e), f)
          | Ret sys =>
              (Generate chatId message chat selectedMode config sys, f)
          end
      end
  | Generate chatId message chat selectedMode config sys =>
      let aiReply := callGroq provider (context sys chat) config in
      let chat :=
        with_messages chat
          (JS.push (messages chat) (mkMessage "assistant" aiReply)) in
      let chat := with_memory chat message in
      (SaveAccess chatId chat aiReply selectedMode, f)
  | SaveAccess chatId chat aiReply selectedMode =>
      match f with
      | Some _ => (SaveRead chatId chat aiReply selectedMode, f)
      | None => (SaveInit chatId chat aiReply selectedMode, f)
      end
  | SaveInit chatId chat aiReply selectedMode =>
      (SaveRead chatId chat aiReply selectedMode, Some [])
  | SaveRead chatId chat aiReply selectedMode =>
      (SaveWrite (JS.set (stored f) chatId chat) aiReply selectedMode, f)
  | SaveWrite data aiReply selectedMode =>
      (Done (Ret (ReplyJson aiReply selectedMode)), Some data)
  | Done r => (Done r, f)
  end.

(** One handler running with nothing in between. *)
Fixpoint alone (provider : Provider) (n : nat) (t : Thread) (f : File)
  : Thread * File :=
  match n with
  | O => (t, f)
  | S n' => let (t', f') := step provider t f in alone provider n' t' f'
  end.

(** Two turns in flight over one data file. *)
Inductive Who : Type := First | Second.

Definition System : Type := (Thread * Thread * File)%type.

Definition resume (provider : Provider) (w : Who) (s : System) : System :=
  let '(t1, t2, f) := s in
  match w with
  | First => let (t1', f') := step provider t1 f in (t1', t2, f')
  | Second => let (t2', f') := step provider t2 f in (t1, t2', f')
  end.

Definition run (provider : Provider) (schedule : list Who) (s : System)
  : System :=
  fold_left (fun s w => resume provider w s) schedule s.

(** A turn has read the document in [saveChat] and not yet written it. *)
Definition writing (t : Thread) : bool :=
  match t with
  | SaveWrite _ _ _ => true
  | _ => false
  end.

Definition overlapping (s : System) : bool :=
  let '(t1, t2, _) := s in writing t1 && writing t2.

(** No state reached under the schedule has both turns between the read
    and the write of [saveChat]. *)
Fixpoint serialized (provider : Provider) (schedule : list Who) (s : System)
  : bool :=
  match schedule with
  | [] => true
  | w :: rest =>
      let s' := resume provider w s in
      negb (overlapping s') && serialized provider rest s'
  end.

Definition finished (t : Thread) : bool :=
  match t with
  | Done _ => true
  | _ => false
  end.

(** ** Specification-side definitions *)

(** In terms of the folded text: some part of [text] folds to the same
    string as [kw]. *)
Definition occurs_ci (kw text : string) : Prop :=
  exists pre w post,
    text = pre ++ w ++ post /\ JS.toLowerCase w = JS.toLowerCase kw.

Definition technical_trigger (text : string) : Prop :=
  exists kw, In kw techKeywords /\ occurs_ci kw text.


















(** The session a turn works on once the user message is pushed. *)
Definition userTurn (s : Session) (message : string) : Session :=
  with_messages s (JS.push (messages s) (mkMessage "user" message)).

(** The profile looked up for a turn on stored session [s]. *)
Definition configOf (s : Session) (message : string) : JS.Value Profile :=
  JS.get MODES (selectMode (userTurn s message) message).

(** The reply of a turn on stored session [s] whose profile lookup is not
    [undefined]. *)
Definition replyOf (provider : Provider) (s : Session) (message : string)
  : string :=
  match systemMessage (configOf s message) (userTurn s message) with
  | Ret sys =>
      callGroq provider (context sys (userTurn s message))
        (configOf s message)
  | Throw _ => ""
  end.

(** The session such a turn hands to [saveChat]. *)
Definition committed (provider : Provider) (s : Session) (message : string)
  : Session :=
  with_memory
    (with_messages (userTurn s message)
       (JS.push (messages (userTurn s message))
          (mkMessage "assistant" (replyOf provider s message))))
    message.

(** A body from which no text can be read, or only the empty text. *)
Definition no_text (data : Completion) : Prop :=
  generated data = None \/ generated data = Some "".

(** ** Invariant of two interleaved turns

    What is known of a turn on the session [s] stored under [id], with
    message [msg], while it is in flight: [mine] tells whether its write
    has been made, and [cur] is the document now in the file. *)
Definition turn_inv (provider : Provider) (id msg : string) (s : Session)
    (mine : bool) (cur : Doc) (t : Thread) : Prop :=
  match t with
  | GetAccess i m | GetRead i m => i = id /\ m = msg /\ mine = false
  | GetInit _ _ => False
  | Generate i m chat mode config sys =>
      i = id /\ m = msg /\ chat = userTurn s msg /\
      mode = selectMode s msg /\ config = configOf s msg /\
      systemMessage config chat = Ret sys /\ mine = false
  | SaveAccess i chat r mode | SaveRead i chat r mode =>
      i = id /\ chat = committed provider s msg /\
      r = replyOf provider s msg /\ mine = false
  | SaveInit _ _ _ _ => False
  | SaveWrite data r _ =>
      data = JS.set cur id (committed provider s msg) /\
      r = replyOf provider s msg /\ mine = false
  | Done (Ret (ReplyJson r _)) => r = replyOf provider s msg /\ mine = true
  | Done _ => mine = false
  end.

(** The document once the turns flagged by [w1] and [w2] have written. *)
Definition written (d : Doc) (id1 : string) (s1 : Session) (id2 : string)
    (s2 : Session) (w1 w2 : bool) : Doc :=
  let d := if w2 then JS.set d id2 s2 else d in
  if w1 then JS.set d id1 s1 else d.

(** Two turns in flight, on the sessions [s1] and [s2] stored under
    [id1] and [id2] in the document [d] they started from. *)
Definition two_turns_inv (provider : Provider) (d : Doc)
    (id1 msg1 : string) (s1 : Session) (id2 msg2 : string) (s2 : Session)
    (sys : System) : Prop :=
  let '(t1, t2, f) := sys in
  exists w1 w2,
    let cur :=
      written d id1 (committed provider s1 msg1)
        id2 (committed provider s2 msg2) w1 w2 in
    f = Some cur /\
    turn_inv provider id1 msg1 s1 w1 cur t1 /\
    turn_inv provider id2 msg2 s2 w2 cur t2.

(** ** Request bodies of any JSON value

    [express.json()] hands the handler whatever JSON value a field of the
    request body holds. *)

#[local] Unset Elimination Schemes.

Inductive Json : Type :=
| JNull
| JBool (b : bool)
| JNumber (text : string)     (* the number, by what [String(n)] gives *)
| JString (s : string)
| JArray (items : list Json)
| JObject (members : list (string * Json)).

#[local] Set Elimination Schemes.

(** Truthiness of a JSON value; the numbers 0 and -0 both print as 0. *)
Definition truthy_json (v : Json) : bool :=
  match v with
  | JNull => false
  | JBool b => b
  | JNumber text => negb (text =? "0")
  | JString s => JS.truthy s
  | JArray _ => true
  | JObject _ => true
  end.

(** Truthiness of a field of the body; [None] is a field that is not
    there. *)
Definition truthy_field (v : option Json) : bool :=
  match v with
  | Some v => truthy_json v
  | None => false
  end.

(** The property key [data[v]] uses: the string [v] converts to.  An
    array is joined with commas, [null] items giving nothing; an object
    gives [[object Object]] unless it has a member [toString], which is
    not a function, so that the conversion throws. *)
Fixpoint toPropertyKey (v : Json) : Result string :=
  match v with
  | JNull => Ret "null"
  | JBool b => Ret (if b then "true" else "false")
  | JNumber text => Ret text
  | JString s => Ret s
  | JArray items =>
      (fix join (l : list Json) : Result string :=
         match l with
         | [] => Ret ""
         | x :: rest =>
             match
               match x with
               | JNull => Ret ""
               | _ => toPropertyKey x
               end
             with
             | Throw e => Throw e
             | Ret sx =>
                 match rest with
                 | [] => Ret sx
                 | _ =>
                     match join rest with
                     | Throw e => Throw e
                     | Ret sr => Ret (sx ++ "," ++ sr)
                     end
                 end
             end
         end) items
  | JObject members =>
      if existsb (fun kv => fst kv =? "toString") members then Throw TypeError
      else Ret "[object Object]"
  end.

(** What the handler comes to.  With a forced mode [detectMode] is not
    called, and a message that is not a string is then pushed, sent and
    stored like any other; sessions holding such a message are not
    among the modelled documents, and the model stops there. *)
Inductive Outcome : Type :=
| Responds (r : Response)
| NonStringTurn.

(** [POST /api/chat] with the body fields [chatId] and [message] as
    they are. *)
Definition postChat (provider : Provider) (chatId message : option Json)
  : M Outcome :=
  if negb (truthy_field chatId) || negb (truthy_field message) then
    ret (Responds Status400)
  else
    match chatId, message with
    | Some chatId, Some message =>
        data <- readData ;;
        key <- lift (toPropertyKey chatId) ;;
        match JS.get data key with
        | JS.Undefined => ret (Responds Status404)
        | JS.Inherited => throw TypeError   (* [chat.messages] is undefined *)
        | JS.Own chat =>
            match message with
            | JString message =>
                let chat :=
                  with_messages chat
                    (JS.push (messages chat) (mkMessage "user" message)) in
                let selectedMode := selectMode chat message in
                let config := JS.get MODES selectedMode in
                sys <- lift (systemMessage config chat) ;;
                let aiReply := callGroq provider (context sys chat) config in
                let chat :=
                  with_messages chat
                    (JS.push (messages chat)
                       (mkMessage "assistant" aiReply)) in
                let chat := with_memory chat message in
                saveChat key chat ;;;
                ret (Responds (ReplyJson aiReply selectedMode))
            | _ =>
                match forcedMode chat with
                | Some m =>
                    if JS.truthy m then
                      match JS.get MODES m with
                      | JS.Undefined => throw TypeError
                      | _ => ret NonStringTurn
                      end
                    else
                      (* [message.toLowerCase] is not a function *)
                      throw TypeError
                | None => throw TypeError
                end
            end
        end
    | _, _ => ret (Responds Status400)
    end.

(** A string field as a JSON value. *)
Definition as_json (v : option string) : option Json :=
  match v with
  | Some s => Some (JString s)
  | None => None
  end.

(** ** The remaining route *)

(** What [GET /api/chat/:chatId] does with its response object: 404, or
    [res.json(chat)] with the value [getChat] returned. *)
Inductive GetResponse : Type :=
| GetStatus404
| GetJson (chat : JS.Value Session).

(** [GET /api/chat/:chatId]. *)
Definition handleGet (chatId : string) : M GetResponse :=
  chat <- getChat chatId ;;
  match chat with
  | JS.Undefined => ret GetStatus404
  | _ => ret (GetJson chat)
  end.

(** The one-line summary of a stored session. *)
Definition summary (kv : string * Session) : string * string * Z :=
  (fst kv, title (snd kv), createdAt (snd kv)).

(** Newest first. *)
Definition newer_first (a b : string * string * Z) : Prop :=
  (snd b <= snd a)%Z.

(** The turn has responded with a reply. *)
Definition answered (t : Thread) : bool :=
  match t with
  | Done (Ret (ReplyJson _ _)) => true
  | _ => false
  end.

(** What is known of a turn under any schedule: before its write it is as
    [turn_inv] says, for a document in which its own session is still
    untouched; the other session is committed there only if the other
    turn has answered. *)
Definition race_turn (provider : Provider) (id msg : string) (s : Session)
    (family : bool -> Doc) (other : Thread) (t : Thread) : Prop :=
  if answered t then
    match t with
    | Done (Ret (ReplyJson r _)) => r = replyOf provider s msg
    | _ => True
    end
  else
    exists b,
      (b = true -> answered other = true) /\
      turn_inv provider id msg s false (family b) t.

(** Two turns in flight under any schedule. *)
Definition race_inv (provider : Provider) (d : Doc)
    (id1 msg1 : string) (s1 : Session) (id2 msg2 : string) (s2 : Session)
    (sys : System) : Prop :=
  let '(t1, t2, f) := sys in
  let after :=
    written d id1 (committed provider s1 msg1)
      id2 (committed provider s2 msg2) in
  exists w1 w2,
    f = Some (after w1 w2) /\
    (w1 = true -> answered t1 = true) /\
    (w2 = true -> answered t2 = true) /\
    (answered t1 = true \/ answered t2 = true -> w1 = true \/ w2 = true) /\
    race_turn provider id1 msg1 s1 (fun b => after false b) t2 t1 /\
    race_turn provider id2 msg2 s2 (fun a => after a false) t1 t2.

(** ** Sample data *)

Module Sample.

(** A transcript of twenty messages, numbered by their content. *)
Definition twenty : list Message :=
  map (fun c => mkMessage "user" (String c ""))
    (list_ascii_of_string "abcdefghijklmnopqrst").

Definition fresh (now : Z) : Session :=
  mkSession "New Chat" now [greeting] "" None.

(** A document with two sessions. *)
Definition doc : Doc := [ ("a", fresh 1000); ("b", fresh 2000) ].

Definition completion (text : string) : Completion :=
  mkCompletion (Some [Some (mkChoice (Some (mkChoiceMessage (Some text))))]).

(** A provider that answers every request with the same text. *)
Definition answering (text : string) : Provider :=
  fun _ => Body (completion text).

(** A provider that is down. *)
Definition unavailable : Provider :=
  fun _ => NotOk "Service Unavailable".

(** A provider that answers with success and no choices. *)
Definition silent : Provider :=
  fun _ => Body (mkCompletion (Some [])).

(** A document whose one session has the forced mode [m]. *)
Definition forced (m : string) : Doc :=
  [ ("a", mkSession "New Chat" 1000 [greeting] "" (Some m)) ].

(** Both turns read the document in [saveChat] before either writes. *)
Definition racing : list Who :=
  [ First; First; First; First; First;
    Second; Second; Second; Second; Second;
    First; Second ].

(** The first turn from start to end, then the second. *)
Definition in_turn : list Who :=
  [ First; First; First; First; First; First;
    Second; Second; Second; Second; Second; Second ].

Definition two_turns : System :=
  (spawn (Some "a") (Some "hi"), spawn (Some "b") (Some "define entropy"),
   Some doc).

End Sample.

(** ** Properties of the JavaScript primitives *)

Module JSFacts.
Import JS.

Lemma startsWith_app (pat post : string) : startsWith (pat ++ post) pat = true.
Proof.
  induction pat as [|c pat IH]; simpl.
  - reflexivity.
  - now rewrite Ascii.eqb_refl, IH.
Qed.

Lemma startsWith_inv (s pat : string) :
  startsWith s pat = true -> exists post, s = pat ++ post.
Proof.
  revert s; induction pat as [|p pat IH]; intros s H.
  - now exists s.
  - destruct s as [|c s]; simpl in H; [discriminate|].
    apply andb_true_iff in H as [Hc Hs].
    apply Ascii.eqb_eq in Hc; subst c.
    destruct (IH _ Hs) as [post ->].
    now exists post.
Qed.

Lemma includes_unfold (s pat : string) :
  includes s pat =
  startsWith s pat ||
  match s with
  | EmptyString => false
  | String _ s' => includes s' pat
  end.
Proof. destruct s; reflexivity. Qed.

Lemma includes_iff (s pat : string) :
  includes s pat = true <-> exists pre post, s = pre ++ pat ++ post.
Proof.
  split.
  - induction s as [|c s IH]; simpl; intros H.
    + rewrite orb_false_r in H.
      destruct (startsWith_inv _ _ H) as [post Hp].
      now exists "", post.
    + apply orb_true_iff in H as [H|H].
      * destruct (startsWith_inv _ _ H) as [post Hp].
        now exists "", post.
      * destruct (IH H) as (pre & post & ->).
        now exists (String c pre), post.
  - intros (pre & post & ->).
    induction pre as [|c pre IH].
    + rewrite includes_unfold. simpl. now rewrite startsWith_app.
    + simpl. rewrite IH. apply orb_true_r.
Qed.

Lemma toLowerCase_app (a b : string) :
  toLowerCase (a ++ b) = toLowerCase a ++ toLowerCase b.
Proof.
  induction a as [|c a IH]; simpl; [reflexivity | now rewrite IH].
Qed.

Lemma toLowerCase_split (s a b : string) :
  toLowerCase s = a ++ b ->
  exists a' b', s = a' ++ b' /\ toLowerCase a' = a /\ toLowerCase b' = b.
Proof.
  revert s; induction a as [|c a IH]; intros s H.
  - now exists "", s.
  - destruct s as [|c' s]; simpl in H; [discriminate|].
    injection H as Hc Hs.
    destruct (IH _ Hs) as (a' & b' & -> & Ha & Hb).
    exists (String c' a'), b'. simpl. now rewrite Hc, Ha, Hb.
Qed.

(** [lower.includes(kw)] for a lower-case keyword is a case-insensitive
    occurrence of the keyword in the message. *)
Lemma includes_lower_iff (text kw : string) :
  toLowerCase kw = kw ->
  includes (toLowerCase text) kw = true <-> occurs_ci kw text.
Proof.
  intros Hkw; rewrite includes_iff; unfold occurs_ci; rewrite Hkw; split.
  - intros (pre & post & H).
    apply toLowerCase_split in H as (pre' & r & -> & _ & H).
    apply toLowerCase_split in H as (w & post' & -> & Hw & _).
    now exists pre', w, post'.
  - intros (pre & w & post & -> & Hw).
    exists (toLowerCase pre), (toLowerCase post).
    now rewrite !toLowerCase_app, Hw.
Qed.

Lemma slice_last_suffix {A : Type} (n : nat) (l : list A) :
  (firstn (List.length l - n) l ++ slice_last n l)%list = l.
Proof. apply firstn_skipn. Qed.

Lemma slice_last_length {A : Type} (n : nat) (l : list A) :
  List.length (slice_last n l) = Nat.min n (List.length l).
Proof. unfold slice_last. rewrite length_skipn. lia. Qed.

Lemma own_replace_same {A : Type} (o : Obj A) (k : string) (v a : A) :
  own o k = Some a -> own (replace o k v) k = Some v.
Proof.
  induction o as [|[k' v'] o IH]; simpl; [discriminate|].
  destruct (k' =? k) eqn:E; simpl; rewrite E; auto.
Qed.

Lemma own_replace_other {A : Type} (o : Obj A) (k k' : string) (v : A) :
  k <> k' -> own (replace o k v) k' = own o k'.
Proof.
  intros Hk; induction o as [|[k0 v0] o IH]; simpl; [reflexivity|].
  destruct (k0 =? k) eqn:E; simpl.
  - apply String.eqb_eq in E; subst k0.
    destruct (k =? k') eqn:E'; [apply String.eqb_eq in E'; contradiction|].
    reflexivity.
  - now rewrite IH.
Qed.

Lemma own_app_none {A : Type} (o o' : Obj A) (k : string) :
  own o k = None -> own (o ++ o')%list k = own o' k.
Proof.
  induction o as [|[k0 v0] o IH]; simpl; [reflexivity|].
  destruct (k0 =? k); [discriminate | exact IH].
Qed.

Lemma own_app_some {A : Type} (o o' : Obj A) (k : string) (a : A) :
  own o k = Some a -> own (o ++ o')%list k = Some a.
Proof.
  induction o as [|[k0 v0] o IH]; simpl; [discriminate|].
  destruct (k0 =? k); [easy | exact IH].
Qed.

(** After [obj[k] = v] with [k] an own property, [obj[k]] is [v]. *)
Lemma own_set_same {A : Type} (o : Obj A) (k : string) (v a : A) :
  own o k = Some a -> own (set o k v) k = Some v.
Proof.
  intros H; unfold set; rewrite H. eapply own_replace_same; eauto.
Qed.

(** [obj[k] = v] leaves every other property as it was. *)
Lemma own_set_other {A : Type} (o : Obj A) (k k' : string) (v : A) :
  k <> k' -> own (set o k v) k' = own o k'.
Proof.
  intros Hk; unfold set.
  destruct (own o k) eqn:E.
  - now apply own_replace_other.
  - destruct (k =? "__proto__"); [reflexivity|].
    destruct (own o k') eqn:E'.
    + now apply own_app_some.
    + rewrite own_app_none by assumption. simpl.
      destruct (k =? k') eqn:E''; [apply String.eqb_eq in E''; contradiction|].
      reflexivity.
Qed.

Lemma replace_comm {A : Type} (o : Obj A) (k k' : string) (v v' : A) :
  k <> k' ->
  replace (replace o k v) k' v' = replace (replace o k' v') k v.
Proof.
  intros Hk; induction o as [|[k0 v0] o IH]; simpl; [reflexivity|].
  destruct (k0 =? k) eqn:E, (k0 =? k') eqn:E'; simpl; rewrite ?E, ?E';
    try reflexivity.
  - apply String.eqb_eq in E, E'. congruence.
  - now rewrite IH.
Qed.

(** Assignments to two distinct own properties commute. *)
Lemma set_comm {A : Type} (o : Obj A) (k k' : string) (v v' a a' : A) :
  k <> k' -> own o k = Some a -> own o k' = Some a' ->
  set (set o k v) k' v' = set (set o k' v') k v.
Proof.
  intros Hk H H'.
  assert (E1 : own (set o k v) k' = Some a') by now rewrite own_set_other.
  assert (E2 : own (set o k' v') k = Some a)
    by (rewrite own_set_other; [assumption | congruence]).
  unfold set at 1 3. rewrite E1, E2.
  unfold set. rewrite H, H'. now apply replace_comm.
Qed.

Lemma own_delete_same {A : Type} (o : Obj A) (k : string) :
  own (delete o k) k = None.
Proof.
  induction o as [|[k0 v0] o IH]; simpl; [reflexivity|].
  destruct (k0 =? k) eqn:E; simpl; [exact IH | now rewrite E].
Qed.

Lemma keys_delete {A : Type} (o : Obj A) (k : string) :
  ~ In k (keys (delete o k)).
Proof.
  unfold keys, delete. rewrite in_map_iff. intros ([k0 v0] & Hk & Hin).
  apply filter_In in Hin as [_ Hf]. simpl in *. subst k0.
  now rewrite String.eqb_refl in Hf.
Qed.

Lemma own_none_delete {A : Type} (o : Obj A) (k : string) :
  own o k = None -> delete o k = o.
Proof.
  induction o as [|[k0 v0] o IH]; simpl; [reflexivity|].
  destruct (k0 =? k) eqn:E; [discriminate|].
  intros H. simpl. now rewrite IH.
Qed.

Lemma own_some_keys {A : Type} (o : Obj A) (k : string) (a : A) :
  own o k = Some a -> In k (keys o).
Proof.
  induction o as [|[k0 v0] o IH]; simpl; [discriminate|].
  destruct (k0 =? k) eqn:E.
  - apply String.eqb_eq in E. now left.
  - intros H. right. now apply IH.
Qed.

Lemma own_none_keys {A : Type} (o : Obj A) (k : string) :
  own o k = None -> ~ In k (keys o).
Proof.
  induction o as [|[k0 v0] o IH]; simpl; [tauto|].
  destruct (k0 =? k) eqn:E; [discriminate|].
  intros H [H0|H0].
  - subst. now rewrite String.eqb_refl in E.
  - now apply IH.
Qed.

End JSFacts.

(** ** Mode policy *)

Section ModePolicy.
Import JS JSFacts.

Lemma techKeywords_lower (kw : string) :
  In kw techKeywords -> toLowerCase kw = kw.
Proof.
  unfold techKeywords; simpl; intros H.
  repeat (destruct H as [<-|H]; [reflexivity|]). contradiction.
Qed.

Lemma technical_trigger_iff (text : string) :
  existsb (fun word => includes (toLowerCase text) word) techKeywords = true
  <-> technical_trigger text.
Proof.
  rewrite existsb_exists; unfold technical_trigger.
  split; intros (kw & Hin & H); exists kw; split; auto;
    now apply (includes_lower_iff text kw (techKeywords_lower kw Hin)).
Qed.















(** Priority, not position, breaks ties: a message that asks for a short
    answer about code is technical. *)
Example priority_over_position :
  detectMode "Short answer please: what is a BUG?" = "technical" /\
  detectMode "a short answer to the exam question" = "concise" /\
  detectMode "DEFINE entropy" = "exam".
Proof. repeat split; reflexivity. Qed.

(** C4: a forced mode that names a profile of [MODES] is the selected
    mode whatever the message says, and its profile is the one looked up;
    forced concise stays concise for a message full of technical
    keywords. *)
Theorem forced_mode_wins
    (chat : Session) (m : string) (p : Profile) (text : string) :
  forcedMode chat = Some m ->
  own MODES m = Some p ->
  (forall detect : unit -> string, or_else (forcedMode chat) detect = m) /\
  selectMode chat text = m /\
  get MODES (selectMode chat text) = Own p.
Proof.
  intros Hf Hm.
  assert (Ht : truthy m = true).
  { destruct (String.eqb_spec m "") as [->|]; [discriminate Hm|].
    unfold truthy. destruct (String.eqb_spec m ""); [contradiction | easy]. }
  assert (Ho : forall detect, or_else (forcedMode chat) detect = m).
  { intros detect. rewrite Hf. simpl. now rewrite Ht. }
  split; [exact Ho|].
  unfold selectMode. rewrite Ho. split; [reflexivity|].
  unfold get. now rewrite Hm.
Qed.

Lemma forced_mode_wins_witness :
  let chat := mkSession "New Chat" 0 [greeting] "" (Some "concise") in
  let text := "fix this bug in my python function" in
  detectMode text = "technical" /\
  selectMode chat text = "concise".
Proof.
  split; [reflexivity|].
  apply (forced_mode_wins
           (mkSession "New Chat" 0 [greeting] "" (Some "concise")) "concise"
           (mkProfile (5 # 10) 150
              "You are Almas. Give very short and clear answers.")
           "fix this bug in my python function");
    reflexivity.
Defined.

End ModePolicy.

(** ** Context construction *)

Section Context.
Import JS JSFacts.

(** C5: for a profile of [MODES] the context sent to the provider is one
    system message, whose content is the profile's prompt, the memory
    label and then the memory (the word None when the memory is empty),
    followed by the last 12 messages of the transcript in their order: a
    suffix of the transcript of length [min 12 (length transcript)], so
    that with more than 12 messages exactly the last 12 are sent and every
    earlier one is left out. *)
Theorem context_is_instruction_then_last_12 (p : Profile) (chat : Session) :
  exists sys earlier window,
    systemMessage (Own p) chat = Ret sys /\
    role sys = "system" /\
    content sys =
      systemPrompt p ++ newline ++ "User Memory:" ++ newline
      ++ (if memory chat =? "" then "None" else memory chat) /\
    context sys chat = sys :: window /\
    messages chat = (earlier ++ window)%list /\
    List.length window = Nat.min 12 (List.length (messages chat)) /\
    (12 < List.length (messages chat) ->
     List.length window = 12 /\
     List.length earlier = List.length (messages chat) - 12).
Proof.
  eexists; exists (firstn (List.length (messages chat) - 12) (messages chat)),
    (slice_last 12 (messages chat)).
  split; [reflexivity|]. split; [reflexivity|]. split.
  { simpl. unfold truthy. now destruct (memory chat =? ""). }
  split; [reflexivity|].
  split; [symmetry; apply slice_last_suffix|].
  split; [apply slice_last_length|].
  intros Hlen. rewrite slice_last_length, length_firstn. lia.
Qed.

Example context_of_twenty (sys : Message) (t m : string) (c : Z) :
  context sys (mkSession t c Sample.twenty m None) =
  sys :: map (fun c => mkMessage "user" (String c ""))
           (list_ascii_of_string "ijklmnopqrst").
Proof. reflexivity. Qed.

End Context.

(** ** Data layer *)

Section DataLayer.
Import JS JSFacts.

(** Reading creates the empty document when the file is missing and
    otherwise leaves the file alone. *)
Lemma readData_run (f : File) :
  readData f = (Ret (stored f), Some (stored f)).
Proof. destruct f; reflexivity. Qed.

Lemma readData_existing (d : Doc) : readData (Some d) = (Ret d, Some d).
Proof. reflexivity. Qed.

Lemma getChat_run (chatId : string) (f : File) :
  getChat chatId f = (Ret (get (stored f) chatId), Some (stored f)).
Proof. unfold getChat, bind. now rewrite readData_run. Qed.

Lemma saveChat_run (chatId : string) (chat : Session) (f : File) :
  saveChat chatId chat f = (Ret tt, Some (set (stored f) chatId chat)).
Proof. unfold saveChat, bind. now rewrite readData_run. Qed.

Lemma deleteChat_run (chatId : string) (f : File) :
  deleteChat chatId f =
  match get (stored f) chatId with
  | Undefined => (Ret false, Some (stored f))
  | _ => (Ret true, Some (delete (stored f) chatId))
  end.
Proof.
  unfold deleteChat, bind. rewrite readData_run.
  now destruct (get (stored f) chatId).
Qed.

Lemma own_stored_some (f : File) (k : string) (s : Session) :
  own (stored f) k = Some s -> f = Some (stored f).
Proof. destruct f; [reflexivity | discriminate]. Qed.

Lemma get_own {A : Type} (o : Obj A) (k : string) (a : A) :
  own o k = Some a -> get o k = Own a.
Proof. unfold get. now intros ->. Qed.

Lemma get_undefined {A : Type} (o : Obj A) (k : string) :
  own o k = None -> inherited k = false -> get o k = Undefined.
Proof. unfold get. now intros -> ->. Qed.

Lemma get_inherited {A : Type} (o : Obj A) (k : string) :
  own o k = None -> inherited k = true -> get o k = Inherited.
Proof. unfold get. now intros -> ->. Qed.

End DataLayer.

(** ** The turn handler *)

Section Turn.
Import JS JSFacts.

Variable provider : Provider.

Lemma selectMode_userTurn (s : Session) (message : string) :
  selectMode (userTurn s message) message = selectMode s message.
Proof. reflexivity. Qed.

(** The handler on a stored session: the whole turn in one equation. *)
Lemma handleTurn_existing
    (chatId message : string) (s : Session) (f : File) :
  truthy chatId = true -> truthy message = true ->
  own (stored f) chatId = Some s ->
  handleTurn provider (Some chatId) (Some message) f =
  match configOf s message with
  | Undefined => (Throw TypeError, f)
  | _ =>
      (Ret (ReplyJson (replyOf provider s message) (selectMode s message)),
       Some (set (stored f) chatId (committed provider s message)))
  end.
Proof.
  intros Hc Hm Hs.
  unfold handleTurn. rewrite Hc, Hm. simpl.
  unfold bind at 1. rewrite getChat_run, (get_own _ _ _ Hs).
  rewrite <- (own_stored_some _ _ _ Hs).
  unfold committed, replyOf.
  fold (userTurn s message).
  fold (configOf s message).
  destruct (configOf s message) eqn:Ecfg; simpl; unfold bind, lift; simpl.
  - now rewrite saveChat_run.
  - now rewrite saveChat_run.
  - reflexivity.
Qed.

(** A turn that answers [ReplyJson] was a turn on a stored session with a
    non-empty message, and the file afterwards has the committed session
    in that session's place. *)
Lemma handleTurn_reply_inv
    (chatId message : option string) (f f' : File) (reply mode : string) :
  handleTurn provider chatId message f = (Ret (ReplyJson reply mode), f') ->
  exists id text s,
    chatId = Some id /\ message = Some text /\
    truthy id = true /\ truthy text = true /\
    own (stored f) id = Some s /\
    reply = replyOf provider s text /\
    mode = selectMode s text /\
    f' = Some (set (stored f) id (committed provider s text)).
Proof.
  destruct chatId as [id|], message as [text|]; try discriminate.
  intros H.
  destruct (truthy id) eqn:Hc;
    [|unfold handleTurn in H; rewrite Hc in H; discriminate].
  destruct (truthy text) eqn:Hm;
    [|unfold handleTurn in H; rewrite Hc, Hm in H; discriminate].
  destruct (own (stored f) id) as [s|] eqn:Hs.
  - rewrite (handleTurn_existing id text s f Hc Hm Hs) in H.
    exists id, text, s.
    destruct (configOf s text); try discriminate;
      injection H as <- <- <-; repeat split; auto.
  - unfold handleTurn in H. rewrite Hc, Hm in H. simpl in H.
    unfold bind at 1 in H. rewrite getChat_run in H.
    unfold get in H. rewrite Hs in H.
    destruct (inherited id); discriminate.
Qed.

End Turn.

Section TurnProperties.
Import JS JSFacts.

Variable provider : Provider.

(** Automatic detection always names a profile of [MODES]. *)
Lemma detectMode_known (text : string) :
  exists p, own MODES (detectMode text) = Some p.
Proof.
  unfold detectMode.
  destruct (existsb _ techKeywords); [eexists; reflexivity|].
  destruct (includes _ "short answer"); [eexists; reflexivity|].
  destruct (_ || _); eexists; reflexivity.
Qed.

(** Without a forced mode a turn on a stored session always answers. *)
Lemma handleTurn_succeeds
    (chatId message : string) (s : Session) (f : File) :
  truthy chatId = true -> truthy message = true ->
  own (stored f) chatId = Some s ->
  forcedMode s = None ->
  handleTurn provider (Some chatId) (Some message) f =
  (Ret (ReplyJson (replyOf provider s message) (detectMode message)),
   Some (set (stored f) chatId (committed provider s message))).
Proof.
  intros Hc Hm Hs Hf.
  rewrite (handleTurn_existing provider chatId message s f Hc Hm Hs).
  unfold configOf. rewrite selectMode_userTurn.
  unfold selectMode. rewrite Hf. simpl.
  destruct (detectMode_known message) as [p Hp].
  now rewrite (get_own _ _ _ Hp).
Qed.

(** C1: when a turn on a stored session answers, the session stored under
    that id afterwards is the old one with two messages appended, the
    user's text and then the assistant's reply, and with the memory set
    to the user's text; title, creation time, forced mode and the earlier
    messages are as before, and so is every other session. *)
Theorem turn_appends_two_and_sets_memory
    (chatId message : string) (s : Session) (f f' : File)
    (reply mode : string) :
  own (stored f) chatId = Some s ->
  handleTurn provider (Some chatId) (Some message) f
  = (Ret (ReplyJson reply mode), f') ->
  message <> "" /\
  (exists s',
     own (stored f') chatId = Some s' /\
     messages s' =
       (messages s
        ++ [mkMessage "user" message; mkMessage "assistant" reply])%list /\
     List.length (messages s') = List.length (messages s) + 2 /\
     memory s' = message /\
     title s' = title s /\
     createdAt s' = createdAt s /\
     forcedMode s' = forcedMode s) /\
  (forall other, other <> chatId ->
     own (stored f') other = own (stored f) other).
Proof.
  intros Hs H.
  apply handleTurn_reply_inv in H
    as (id & text & s0 & Hid & Htext & _ & Hm & Hs0 & -> & -> & ->).
  injection Hid as <-. injection Htext as <-.
  rewrite Hs in Hs0. injection Hs0 as <-.
  split. { intros ->. discriminate Hm. }
  split.
  - exists (committed provider s message). simpl.
    split; [eapply own_set_same; eauto|].
    unfold push. rewrite <- app_assoc. simpl.
    split; [reflexivity|].
    rewrite length_app. simpl. repeat split; lia.
  - intros other Hother. simpl. apply own_set_other. congruence.
Qed.

(** The reply of a turn is what [callGroq] returns for its context. *)
Lemma replyOf_callGroq (s : Session) (message : string) :
  configOf s message <> Undefined ->
  exists sys,
    replyOf provider s message =
    callGroq provider (context sys (userTurn s message)) (configOf s message).
Proof.
  intros Hcfg. unfold replyOf.
  destruct (configOf s message); [| |congruence];
    eexists; unfold systemMessage; reflexivity.
Qed.

(** Every catch path of [callGroq] returns the fallback reply. *)
Lemma callGroq_caught (msgs : list Message) (config : Value Profile) :
  (forall request, caught (provider request) = true) ->
  callGroq provider msgs config = fallbackReply.
Proof.
  intros H. unfold callGroq.
  destruct config; try reflexivity;
    match goal with |- context [provider ?r] =>
      specialize (H r); destruct (provider r) end;
    try reflexivity; discriminate.
Qed.

(** C2: when the provider call of a turn fails, by a rejected [fetch], a
    response that is not ok, or a body that cannot be read, the handler
    still answers with the fallback reply as the reply, and the stored
    session has grown by the user message and an assistant message
    holding the fallback reply. *)
Theorem upstream_failure_absorbed
    (chatId message : string) (s : Session) (f : File) :
  (forall request, caught (provider request) = true) ->
  truthy chatId = true -> truthy message = true ->
  own (stored f) chatId = Some s ->
  configOf s message <> Undefined ->
  exists f' s',
    handleTurn provider (Some chatId) (Some message) f
    = (Ret (ReplyJson fallbackReply (selectMode s message)), f') /\
    own (stored f') chatId = Some s' /\
    messages s' =
      (messages s
       ++ [mkMessage "user" message; mkMessage "assistant" fallbackReply])%list /\
    List.length (messages s') = List.length (messages s) + 2.
Proof.
  intros Hfail Hc Hm Hs Hcfg.
  assert (Hr : replyOf provider s message = fallbackReply).
  { destruct (replyOf_callGroq s message Hcfg) as [sys ->].
    now apply callGroq_caught. }
  exists (Some (set (stored f) chatId (committed provider s message))),
    (committed provider s message).
  rewrite (handleTurn_existing provider chatId message s f Hc Hm Hs).
  split.
  { destruct (configOf s message); [| |congruence]; now rewrite Hr. }
  split; [simpl; eapply own_set_same; eauto|].
  simpl. unfold push. rewrite <- app_assoc, Hr. simpl.
  split; [reflexivity|]. rewrite length_app. simpl. lia.
Qed.

Lemma callGroq_no_text (msgs : list Message) (config : Value Profile) :
  config <> Undefined ->
  (forall request, exists data, provider request = Body data /\ no_text data) ->
  callGroq provider msgs config = "".
Proof.
  intros Hcfg H. unfold callGroq.
  destruct config; try congruence;
    match goal with |- context [provider ?r] =>
      destruct (H r) as (data & -> & [-> | ->]) end; reflexivity.
Qed.

(** C10: when the provider answers with success and a body without
    choices or with empty content, the reply and the assistant message
    appended to the session are the empty string, which is not the
    fallback reply. *)
Theorem empty_completion_gives_empty_reply
    (chatId message : string) (s : Session) (f : File) :
  (forall request, exists data, provider request = Body data /\ no_text data) ->
  truthy chatId = true -> truthy message = true ->
  own (stored f) chatId = Some s ->
  configOf s message <> Undefined ->
  exists f' s',
    handleTurn provider (Some chatId) (Some message) f
    = (Ret (ReplyJson "" (selectMode s message)), f') /\
    own (stored f') chatId = Some s' /\
    messages s' =
      (messages s
       ++ [mkMessage "user" message; mkMessage "assistant" ""])%list /\
    "" <> fallbackReply.
Proof.
  intros Hbody Hc Hm Hs Hcfg.
  assert (Hr : replyOf provider s message = "").
  { destruct (replyOf_callGroq s message Hcfg) as [sys ->].
    now apply callGroq_no_text. }
  exists (Some (set (stored f) chatId (committed provider s message))),
    (committed provider s message).
  rewrite (handleTurn_existing provider chatId message s f Hc Hm Hs).
  split.
  { destruct (configOf s message); [| |congruence]; now rewrite Hr. }
  split; [simpl; eapply own_set_same; eauto|].
  simpl. unfold push. rewrite <- app_assoc, Hr. simpl.
  split; [reflexivity | discriminate].
Qed.

End TurnProperties.

Section TurnWitnesses.
Import JS.

Lemma turn_appends_two_and_sets_memory_witness :
  let f := Some Sample.doc in
  let r := handleTurn (Sample.answering "Hello!") (Some "a") (Some "hi") f in
  fst r = Ret (ReplyJson "Hello!" "chat") /\
  own (stored (snd r)) "a" =
    Some (mkSession "New Chat" 1000
            [greeting; mkMessage "user" "hi"; mkMessage "assistant" "Hello!"]
            "hi" None) /\
  own (stored (snd r)) "b" = own (stored f) "b".
Proof.
  split; [reflexivity|].
  destruct (turn_appends_two_and_sets_memory (Sample.answering "Hello!")
              "a" "hi" (Sample.fresh 1000) (Some Sample.doc)
              (snd (handleTurn (Sample.answering "Hello!")
                      (Some "a") (Some "hi") (Some Sample.doc)))
              "Hello!" "chat" eq_refl eq_refl)
    as (_ & _ & Hothers).
  split; [reflexivity|].
  apply Hothers. discriminate.
Defined.

Lemma upstream_failure_absorbed_witness :
  exists f' s',
    handleTurn Sample.unavailable (Some "a") (Some "hi") (Some Sample.doc)
    = (Ret (ReplyJson fallbackReply "chat"), f') /\
    own (stored f') "a" = Some s' /\
    messages s' =
      [greeting; mkMessage "user" "hi"; mkMessage "assistant" fallbackReply] /\
    List.length (messages s') = 3.
Proof.
  apply (upstream_failure_absorbed Sample.unavailable "a" "hi"
           (Sample.fresh 1000) (Some Sample.doc)).
  - intros request. reflexivity.
  - reflexivity.
  - reflexivity.
  - reflexivity.
  - discriminate.
Defined.

Lemma empty_completion_gives_empty_reply_witness :
  exists f' s',
    handleTurn Sample.silent (Some "b") (Some "define entropy")
      (Some Sample.doc)
    = (Ret (ReplyJson "" "exam"), f') /\
    own (stored f') "b" = Some s' /\
    messages s' =
      [greeting; mkMessage "user" "define entropy"; mkMessage "assistant" ""] /\
    "" <> fallbackReply.
Proof.
  apply (empty_completion_gives_empty_reply Sample.silent "b"
           "define entropy" (Sample.fresh 2000) (Some Sample.doc)).
  - intros request. exists (mkCompletion (Some [])).
    split; [reflexivity | left; reflexivity].
  - reflexivity.
  - reflexivity.
  - reflexivity.
  - discriminate.
Defined.

End TurnWitnesses.

(** ** Keys that are not own properties *)

Section PrototypeKeys.
Import JS JSFacts.

Variable provider : Provider.

(** An id that is neither stored nor a name on [Object.prototype] is
    answered with 404, and the stored mapping is as before. *)
Lemma handleTurn_unknown_id (chatId message : string) (f : File) :
  truthy chatId = true -> truthy message = true ->
  own (stored f) chatId = None -> inherited chatId = false ->
  handleTurn provider (Some chatId) (Some message) f
  = (Ret Status404, Some (stored f)).
Proof.
  intros Hc Hm Hs Hi. unfold handleTurn. rewrite Hc, Hm. simpl.
  unfold bind. now rewrite getChat_run, (get_undefined _ _ Hs Hi).
Qed.

(** An id that is not stored but names a member of [Object.prototype]
    passes the [!chat] test; the handler throws at [chat.messages.push]. *)
Lemma handleTurn_inherited_id (chatId message : string) (f : File) :
  truthy chatId = true -> truthy message = true ->
  own (stored f) chatId = None -> inherited chatId = true ->
  handleTurn provider (Some chatId) (Some message) f
  = (Throw TypeError, Some (stored f)).
Proof.
  intros Hc Hm Hs Hi. unfold handleTurn. rewrite Hc, Hm. simpl.
  unfold bind. now rewrite getChat_run, (get_inherited _ _ Hs Hi).
Qed.

(** Whatever the id, a turn on an id that is not stored leaves the stored
    mapping as it was; the one write it can make is the creation of the
    empty document when the file is missing. *)
Lemma handleTurn_not_stored_no_commit
    (chatId message : option string) (f : File) (id : string) :
  chatId = Some id -> own (stored f) id = None ->
  stored (snd (handleTurn provider chatId message f)) = stored f /\
  (forall d, f = Some d ->
     snd (handleTurn provider chatId message f) = f).
Proof.
  intros -> Hs. unfold handleTurn.
  destruct message as [message|]; [|split; [reflexivity | auto]].
  destruct (negb (truthy id) || negb (truthy message));
    [split; [reflexivity | auto]|].
  unfold bind. rewrite getChat_run. unfold get. rewrite Hs.
  destruct (inherited id); simpl; split; try reflexivity;
    intros d ->; reflexivity.
Qed.

(** C6 (the code departs from the claim): the id ["constructor"] is not
    stored, yet the handler does not answer 404: [data["constructor"]] is
    the inherited [Object] function, and the handler throws.  The file is
    not written. *)
Theorem unknown_id_constructor_throws :
  own Sample.doc "constructor" = None /\
  handleTurn provider (Some "constructor") (Some "hi") (Some Sample.doc)
  = (Throw TypeError, Some Sample.doc).
Proof.
  split; [reflexivity|].
  now rewrite handleTurn_inherited_id.
Qed.

(** A forced mode, when it is a non-empty string, is the selected mode. *)
Lemma forced_mode_selected (s : Session) (m text : string) :
  forcedMode s = Some m -> truthy m = true -> selectMode s text = m.
Proof. intros Hf Ht. unfold selectMode. rewrite Hf. simpl. now rewrite Ht. Qed.

(** C9, as the code has it: a forced mode that is a non-empty string is
    the selected mode, so automatic detection is not consulted; when it
    names neither a profile of [MODES] nor a member of
    [Object.prototype], the lookup is [undefined], the handler throws on
    reading [config.systemPrompt], and the file is left as it was. *)
Theorem unknown_forced_mode_throws
    (chatId message m : string) (s : Session) (f : File) :
  truthy chatId = true -> truthy message = true ->
  own (stored f) chatId = Some s ->
  forcedMode s = Some m -> truthy m = true ->
  own MODES m = None -> inherited m = false ->
  selectMode s message = m /\
  configOf s message = Undefined /\
  handleTurn provider (Some chatId) (Some message) f = (Throw TypeError, f).
Proof.
  intros Hc Hm Hs Hf Ht Ho Hi.
  assert (Hsel : selectMode s message = m)
    by now apply forced_mode_selected.
  assert (Hcfg : configOf s message = Undefined).
  { unfold configOf. rewrite selectMode_userTurn, Hsel.
    now apply get_undefined. }
  repeat split; auto.
  rewrite (handleTurn_existing provider chatId message s f Hc Hm Hs).
  now rewrite Hcfg.
Qed.

End PrototypeKeys.

Section PrototypeKeysExamples.
Import JS JSFacts.

Lemma unknown_forced_mode_throws_witness :
  handleTurn (Sample.answering "Hello!") (Some "a") (Some "fix this bug")
    (Some (Sample.forced "poetry"))
  = (Throw TypeError, Some (Sample.forced "poetry")).
Proof.
  apply (unknown_forced_mode_throws (Sample.answering "Hello!")
           "a" "fix this bug" "poetry"
           (mkSession "New Chat" 1000 [greeting] "" (Some "poetry"))
           (Some (Sample.forced "poetry")));
    reflexivity.
Defined.

(** C9, as stated, fails: the forced mode ["toString"] is a non-empty
    string and not a mode identifier, yet [MODES["toString"]] is the
    inherited function, reading its [systemPrompt] gives [undefined]
    without throwing, and the turn is answered and committed. *)
Lemma forced_mode_toString_is_answered :
  own MODES "toString" = None /\
  handleTurn (Sample.answering "Hello!") (Some "a") (Some "fix this bug")
    (Some (Sample.forced "toString"))
  = (Ret (ReplyJson "Hello!" "toString"),
     Some [ ("a",
             mkSession "New Chat" 1000
               [greeting; mkMessage "user" "fix this bug";
                mkMessage "assistant" "Hello!"]
               "fix this bug" (Some "toString")) ]).
Proof. split; reflexivity. Qed.

End PrototypeKeysExamples.

(** ** Deleting and listing *)

Section Delete.
Import JS JSFacts.

Lemma sort_insert_In {A : Type} (cmp : A -> A -> Z) (x y : A) (l : list A) :
  In y (sort_insert cmp x l) <-> y = x \/ In y l.
Proof.
  induction l as [|z l IH]; simpl.
  - intuition congruence.
  - destruct (cmp x z >? 0)%Z; simpl; [rewrite IH|]; intuition congruence.
Qed.

(** Sorting neither adds nor drops an element. *)
Lemma sort_In {A : Type} (cmp : A -> A -> Z) (y : A) (l : list A) :
  In y (sort cmp l) <-> In y l.
Proof.
  induction l as [|x l IH]; simpl; [tauto|].
  rewrite sort_insert_In, IH. intuition congruence.
Qed.

(** The ids listed by [GET /api/chats] are the keys of the document. *)
Lemma summaries_ids (data : Doc) (id : string) :
  In id (map (fun e => fst (fst e)) (summaries data)) <-> In id (keys data).
Proof.
  unfold summaries, keys. rewrite !in_map_iff. split.
  - intros (e & <- & He). apply sort_In in He.
    apply in_map_iff in He as (kv & <- & Hkv). now exists kv.
  - intros (kv & <- & Hkv).
    exists (fst kv, title (snd kv), createdAt (snd kv)).
    split; [reflexivity|]. apply sort_In, in_map_iff. now exists kv.
Qed.

(** Deleting a stored session reports [true] and removes it. *)
Lemma deleteChat_stored (chatId : string) (s : Session) (f : File) :
  own (stored f) chatId = Some s ->
  deleteChat chatId f = (Ret true, Some (delete (stored f) chatId)).
Proof.
  intros Hs. now rewrite deleteChat_run, (get_own _ _ _ Hs).
Qed.

(** Deleting an id that is neither stored nor a name on
    [Object.prototype] reports [false] and writes nothing. *)
Lemma deleteChat_unknown (chatId : string) (f : File) :
  own (stored f) chatId = None -> inherited chatId = false ->
  deleteChat chatId f = (Ret false, Some (stored f)).
Proof.
  intros Hs Hi. now rewrite deleteChat_run, (get_undefined _ _ Hs Hi).
Qed.

(** Deleting an id that is not stored but names a member of
    [Object.prototype] reports [true] and rewrites the same document. *)
Lemma deleteChat_inherited (chatId : string) (f : File) :
  own (stored f) chatId = None -> inherited chatId = true ->
  deleteChat chatId f = (Ret true, Some (stored f)).
Proof.
  intros Hs Hi.
  now rewrite deleteChat_run, (get_inherited _ _ Hs Hi), own_none_delete.
Qed.

(** For ids that are not names on [Object.prototype], delete behaves as a
    test of existence: [true] exactly for a stored session, which is then
    gone from the document and from the listing, and [false] the second
    time. *)
Lemma deleteChat_plain_id (chatId : string) (f : File) :
  inherited chatId = false ->
  let r := deleteChat chatId f in
  (fst r = Ret true <-> exists s, own (stored f) chatId = Some s) /\
  (fst r = Ret true \/ fst r = Ret false) /\
  own (stored (snd r)) chatId = None /\
  ~ In chatId (map (fun e => fst (fst e)) (summaries (stored (snd r)))) /\
  deleteChat chatId (snd r) = (Ret false, snd r).
Proof.
  intros Hi. simpl.
  destruct (own (stored f) chatId) as [s|] eqn:Hs.
  - rewrite (deleteChat_stored _ _ _ Hs). simpl.
    assert (Hd : own (delete (stored f) chatId) chatId = None)
      by apply own_delete_same.
    repeat split; eauto.
    + rewrite summaries_ids. apply keys_delete.
    + now rewrite deleteChat_unknown.
  - rewrite (deleteChat_unknown _ _ Hs Hi). simpl.
    repeat split; auto.
    + discriminate.
    + intros [s Hs']. discriminate.
    + rewrite summaries_ids. now apply own_none_keys.
    + now rewrite deleteChat_unknown.
Qed.

(** C7 (the code departs from the claim): no session is stored under
    ["toString"], yet deleting it reports success, [data["toString"]]
    being the inherited function; deleting it again reports success
    again, and the document is rewritten unchanged each time. *)
Theorem delete_toString_reports_success :
  own Sample.doc "toString" = None /\
  deleteChat "toString" (Some Sample.doc) = (Ret true, Some Sample.doc) /\
  handleDelete "toString" (Some Sample.doc)
  = (Ret SuccessJson, Some Sample.doc) /\
  (success <- deleteChat "toString" ;; deleteChat "toString")
    (Some Sample.doc)
  = (Ret true, Some Sample.doc).
Proof. repeat split; reflexivity. Qed.

(** Deleting a stored session twice: [true], then [false], and the
    listing no longer has it. *)
Example delete_twice :
  deleteChat "a" (Some Sample.doc)
  = (Ret true, Some [("b", Sample.fresh 2000)]) /\
  deleteChat "a" (Some [("b", Sample.fresh 2000)])
  = (Ret false, Some [("b", Sample.fresh 2000)]) /\
  handleList (Some [("b", Sample.fresh 2000)])
  = (Ret (ListJson [("b", "New Chat", 2000%Z)]),
     Some [("b", Sample.fresh 2000)]).
Proof. repeat split; reflexivity. Qed.

End Delete.

(** ** Interleaved turns *)

Section Interleaving.
Import JS JSFacts.

Variable provider : Provider.

(** X16: a handler that runs with nothing in between behaves as
    [handleTurn]: eight steps are enough to finish it, with the same
    response or exception and the same file. *)
Lemma alone_handleTurn (chatId message : option string) (f : File) :
  alone provider 8 (spawn chatId message) f =
  (Done (fst (handleTurn provider chatId message f)),
   snd (handleTurn provider chatId message f)).
Proof.
  destruct chatId as [id|], message as [text|]; try reflexivity.
  destruct (truthy id) eqn:Hc;
    [|unfold spawn, handleTurn; rewrite Hc; reflexivity].
  destruct (truthy text) eqn:Hm;
    [|unfold spawn, handleTurn; rewrite Hc, Hm; reflexivity].
  unfold spawn. rewrite Hc, Hm. cbn [negb orb].
  destruct (own (stored f) id) as [s|] eqn:Hs.
  - rewrite (handleTurn_existing provider id text s f Hc Hm Hs).
    rewrite (own_stored_some _ _ _ Hs).
    cbn [alone step stored]. rewrite (get_own _ _ _ Hs).
    fold (userTurn s text). fold (configOf s text).
    unfold committed, replyOf.
    destruct (configOf s text); reflexivity.
  - destruct (inherited id) eqn:Hi.
    + rewrite (handleTurn_inherited_id provider id text f Hc Hm Hs Hi).
      destruct f as [d|]; cbn [alone step stored] in *;
        rewrite (get_inherited _ _ Hs Hi); reflexivity.
    + rewrite (handleTurn_unknown_id provider id text f Hc Hm Hs Hi).
      destruct f as [d|]; cbn [alone step stored] in *;
        rewrite (get_undefined _ _ Hs Hi); reflexivity.
Qed.

(** C8, as stated, fails: two turns on the distinct sessions a and b both
    answer, but under the schedule in which both read the document in
    [saveChat] before either writes it, the second write puts back the
    first session as it was before its turn. *)
Lemma racing_turns_lose_an_update :
  run (Sample.answering "Hello!") Sample.racing Sample.two_turns
  = (Done (Ret (ReplyJson "Hello!" "chat")),
     Done (Ret (ReplyJson "Hello!" "exam")),
     Some [ ("a", Sample.fresh 1000);
            ("b",
             mkSession "New Chat" 2000
               [greeting; mkMessage "user" "define entropy";
                mkMessage "assistant" "Hello!"]
               "define entropy" None) ]) /\
  serialized (Sample.answering "Hello!") Sample.racing Sample.two_turns
  = false.
Proof. split; reflexivity. Qed.

End Interleaving.

Section Serialized.
Import JS JSFacts.

Variable provider : Provider.

(** What is known of a turn that is not about to write does not depend
    on the document in the file. *)
Lemma turn_inv_cur (id msg : string) (s : Session) (mine : bool)
    (cur cur' : Doc) (t : Thread) :
  writing t = false ->
  turn_inv provider id msg s mine cur t ->
  turn_inv provider id msg s mine cur' t.
Proof. destruct t; simpl; auto; discriminate. Qed.

(** A turn whose write is made has answered, and stays as it is. *)
Lemma turn_inv_written (id msg : string) (s : Session) (cur : Doc)
    (t : Thread) (f : File) :
  turn_inv provider id msg s true cur t ->
  writing t = false /\ step provider t f = (t, f).
Proof.
  destruct t; simpl; intuition discriminate.
Qed.

(** One step of a turn whose write is still to come. *)
Lemma turn_step (id msg : string) (s : Session) (cur : Doc) (t : Thread) :
  own cur id = Some s ->
  turn_inv provider id msg s false cur t ->
  let (t', f') := step provider t (Some cur) in
  if writing t then
    f' = Some (set cur id (committed provider s msg)) /\
    forall cur', turn_inv provider id msg s true cur' t'
  else
    f' = Some cur /\ turn_inv provider id msg s false cur t'.
Proof.
  intros Hs Hinv. destruct t; cbn [step writing stored].
  - destruct Hinv as (-> & -> & _). now repeat split.
  - destruct Hinv.
  - destruct Hinv as (-> & -> & _). rewrite (get_own _ _ _ Hs).
    fold (userTurn s msg). fold (configOf s msg).
    destruct (systemMessage (configOf s msg) (userTurn s msg)) eqn:E.
    + now repeat split.
    + now split.
  - destruct Hinv as (-> & -> & -> & -> & -> & Hsys & _).
    split; [reflexivity|]. cbn [turn_inv].
    unfold committed, replyOf. rewrite Hsys. now repeat split.
  - destruct Hinv as (-> & -> & -> & _). now repeat split.
  - destruct Hinv.
  - destruct Hinv as (-> & -> & -> & _). now repeat split.
  - destruct Hinv as (-> & -> & _). split; [reflexivity|].
    intros cur'. now split.
  - split; [reflexivity | exact Hinv].
Qed.

Variable d : Doc.
Variables id1 msg1 id2 msg2 : string.
Variables s1 s2 : Session.
Hypothesis distinct : id1 <> id2.
Hypothesis stored1 : own d id1 = Some s1.
Hypothesis stored2 : own d id2 = Some s2.

Local Abbreviation doc_after :=
  (written d id1 (committed provider s1 msg1) id2 (committed provider s2 msg2)).
Local Abbreviation Inv := (two_turns_inv provider d id1 msg1 s1 id2 msg2 s2).

Lemma written_own1 (w2 : bool) : own (doc_after false w2) id1 = Some s1.
Proof.
  unfold written. destruct w2; [|exact stored1].
  rewrite own_set_other; [exact stored1 | congruence].
Qed.

Lemma written_own2 (w1 : bool) : own (doc_after w1 false) id2 = Some s2.
Proof.
  unfold written. destruct w1; [|exact stored2].
  rewrite own_set_other; [exact stored2 | congruence].
Qed.

Lemma written_set1 (w2 : bool) :
  set (doc_after false w2) id1 (committed provider s1 msg1)
  = doc_after true w2.
Proof. reflexivity. Qed.

Lemma written_set2 (w1 : bool) :
  set (doc_after w1 false) id2 (committed provider s2 msg2)
  = doc_after w1 true.
Proof.
  unfold written. destruct w1; [|reflexivity].
  eapply set_comm; eauto.
Qed.

(** Resuming either turn keeps the invariant, as long as the two turns
    are not both between the read and the write of [saveChat]. *)
Lemma resume_inv (w : Who) (sys : System) :
  Inv sys -> overlapping sys = false -> Inv (resume provider w sys).
Proof.
  destruct sys as [[t1 t2] f]. intros (w1 & w2 & Hf & H1 & H2) Hov.
  cbn zeta in Hf, H1, H2. subst f. unfold overlapping in Hov.
  destruct w; cbn [resume].
  - destruct w1.
    + destruct (turn_inv_written _ _ _ _ _ (Some (doc_after true w2)) H1)
        as [_ ->].
      exists true, w2. now repeat split.
    + pose proof (turn_step id1 msg1 s1 _ t1 (written_own1 w2) H1) as Hstep.
      destruct (step provider t1 (Some (doc_after false w2))) as [t1' f'].
      destruct (writing t1) eqn:Hw.
      * destruct Hstep as [-> Ht1]. rewrite written_set1.
        exists true, w2. cbn zeta. repeat split; auto.
        eapply turn_inv_cur; eauto.
      * destruct Hstep as [-> Ht1]. exists false, w2. now repeat split.
  - destruct w2.
    + destruct (turn_inv_written _ _ _ _ _ (Some (doc_after w1 true)) H2)
        as [_ ->].
      exists w1, true. now repeat split.
    + pose proof (turn_step id2 msg2 s2 _ t2 (written_own2 w1) H2) as Hstep.
      destruct (step provider t2 (Some (doc_after w1 false))) as [t2' f'].
      destruct (writing t2) eqn:Hw.
      * destruct Hstep as [-> Ht2]. rewrite written_set2.
        exists w1, true. cbn zeta. repeat split; auto.
        eapply turn_inv_cur; eauto.
        now rewrite andb_true_r in Hov.
      * destruct Hstep as [-> Ht2]. exists w1, false. now repeat split.
Qed.

Lemma run_inv (schedule : list Who) (sys : System) :
  Inv sys -> overlapping sys = false ->
  serialized provider schedule sys = true ->
  Inv (run provider schedule sys).
Proof.
  revert sys; induction schedule as [|w rest IH]; intros sys Hinv Hov Hser.
  - exact Hinv.
  - cbn [serialized] in Hser. apply andb_true_iff in Hser as [Hov' Hser].
    apply negb_true_iff in Hov'.
    unfold run; cbn [fold_left]. apply IH; auto using resume_inv.
Qed.

Lemma spawn_inv (id msg : string) (s : Session) (cur : Doc) :
  turn_inv provider id msg s false cur (spawn (Some id) (Some msg)) /\
  writing (spawn (Some id) (Some msg)) = false.
Proof.
  unfold spawn. destruct (negb (truthy id) || negb (truthy msg)); now simpl.
Qed.

(** C8, as the code has it: two turns on distinct stored sessions, both
    answered, under any schedule that never has both turns between the
    read and the write of [saveChat]: afterwards the file holds the
    committed session of each, that is, each transcript with its user
    message and the reply that turn returned appended. *)
Theorem serialized_turns_both_persist
    (schedule : list Who) (r1 m1 r2 m2 : string) (f' : File) :
  let start :=
    (spawn (Some id1) (Some msg1), spawn (Some id2) (Some msg2), Some d) in
  serialized provider schedule start = true ->
  run provider schedule start
  = (Done (Ret (ReplyJson r1 m1)), Done (Ret (ReplyJson r2 m2)), f') ->
  exists c1 c2,
    own (stored f') id1 = Some c1 /\
    own (stored f') id2 = Some c2 /\
    messages c1 =
      (messages s1
       ++ [mkMessage "user" msg1; mkMessage "assistant" r1])%list /\
    messages c2 =
      (messages s2
       ++ [mkMessage "user" msg2; mkMessage "assistant" r2])%list /\
    memory c1 = msg1 /\ memory c2 = msg2.
Proof.
  intros start Hser Hrun.
  assert (Hinv : Inv (run provider schedule start)).
  { apply run_inv; auto.
    - exists false, false. cbn zeta.
      repeat split; try apply spawn_inv.
    - unfold start, overlapping.
      now rewrite (proj2 (spawn_inv id1 msg1 s1 d)). }
  rewrite Hrun in Hinv. destruct Hinv as (w1 & w2 & Hf & H1 & H2).
  cbn zeta in Hf, H1, H2. simpl in H1, H2.
  destruct H1 as [-> ->], H2 as [-> ->]. subst f'.
  exists (committed provider s1 msg1), (committed provider s2 msg2).
  cbn [stored written].
  split. { eapply own_set_same. rewrite own_set_other by congruence. eauto. }
  split. { rewrite own_set_other by congruence. eapply own_set_same; eauto. }
  simpl. unfold push. rewrite <- !app_assoc. now simpl.
Qed.

End Serialized.

Lemma serialized_turns_both_persist_witness :
  exists c1 c2,
    JS.own (stored (snd (run (Sample.answering "Hello!") Sample.in_turn
                        Sample.two_turns))) "a" = Some c1 /\
    JS.own (stored (snd (run (Sample.answering "Hello!") Sample.in_turn
                        Sample.two_turns))) "b" = Some c2 /\
    messages c1 =
      [greeting; mkMessage "user" "hi"; mkMessage "assistant" "Hello!"] /\
    messages c2 =
      [greeting; mkMessage "user" "define entropy";
       mkMessage "assistant" "Hello!"] /\
    memory c1 = "hi" /\ memory c2 = "define entropy".
Proof.
  apply (serialized_turns_both_persist (Sample.answering "Hello!")
           Sample.doc "a" "hi" "b" "define entropy"
           (Sample.fresh 1000) (Sample.fresh 2000)
           ltac:(discriminate) eq_refl eq_refl
           Sample.in_turn "Hello!" "chat" "Hello!" "exam");
    reflexivity.
Defined.

(** ** More on the data layer *)

Module ObjFacts.
Import JS JSFacts.

Lemma own_set_new {A : Type} (o : Obj A) (k : string) (v : A) :
  own o k = None -> k <> "__proto__" -> own (set o k v) k = Some v.
Proof.
  intros Ho Hk. unfold set. rewrite Ho.
  destruct (String.eqb_spec k "__proto__") as [|_]; [contradiction|].
  rewrite own_app_none by assumption. simpl. now rewrite String.eqb_refl.
Qed.

(** After [obj[k] = v], [obj[k]] is [v], for every key but ["__proto__"]. *)
Lemma own_set {A : Type} (o : Obj A) (k : string) (v : A) :
  k <> "__proto__" -> own (set o k v) k = Some v.
Proof.
  intros Hk. destruct (own o k) eqn:Ho.
  - eapply own_set_same; eauto.
  - now apply own_set_new.
Qed.



Lemma set_fresh {A : Type} (o : Obj A) (k : string) (v : A) :
  own o k = None -> k <> "__proto__" -> set o k v = (o ++ [(k, v)])%list.
Proof.
  intros Ho Hk. unfold set. rewrite Ho.
  now destruct (String.eqb_spec k "__proto__").
Qed.

Lemma replace_replace {A : Type} (o : Obj A) (k : string) (v v' : A) :
  replace (replace o k v) k v' = replace o k v'.
Proof.
  induction o as [|[k0 v0] o IH]; simpl; [reflexivity|].
  destruct (k0 =? k) eqn:E; simpl; rewrite E; [reflexivity | now rewrite IH].
Qed.

Lemma replace_app_none {A : Type} (o o' : Obj A) (k : string) (v : A) :
  own o k = None -> replace (o ++ o')%list k v = (o ++ replace o' k v)%list.
Proof.
  induction o as [|[k0 v0] o IH]; simpl; [reflexivity|].
  destruct (k0 =? k); [discriminate|]. intros Ho. now rewrite IH.
Qed.

(** Of two assignments to the same key the second is the one that counts. *)
Lemma set_set {A : Type} (o : Obj A) (k : string) (v v' : A) :
  set (set o k v) k v' = set o k v'.
Proof.
  destruct (own o k) eqn:Ho.
  - assert (H1 : own (set o k v) k = Some v) by (eapply own_set_same; eauto).
    unfold set at 1. rewrite H1. unfold set. rewrite Ho.
    apply replace_replace.
  - destruct (String.eqb_spec k "__proto__") as [Hk|Hk].
    + unfold set. rewrite Ho. subst k. simpl. now rewrite Ho.
    + assert (H1 : own (set o k v) k = Some v) by now apply own_set_new.
      unfold set at 1. rewrite H1. rewrite !set_fresh by assumption.
      rewrite replace_app_none by assumption. simpl.
      now rewrite String.eqb_refl.
Qed.

Lemma own_delete_other {A : Type} (o : Obj A) (k k' : string) :
  k <> k' -> own (delete o k) k' = own o k'.
Proof.
  intros Hk. induction o as [|[k0 v0] o IH]; simpl; [reflexivity|].
  destruct (k0 =? k) eqn:E; simpl.
  - apply String.eqb_eq in E; subst k0.
    destruct (String.eqb_spec k k'); [contradiction | exact IH].
  - now rewrite IH.
Qed.

Lemma keys_delete_filter {A : Type} (o : Obj A) (k : string) :
  keys (delete o k) = filter (fun k' => negb (k' =? k)) (keys o).
Proof.
  induction o as [|[k0 v0] o IH]; simpl; [reflexivity|].
  destruct (k0 =? k); simpl; now rewrite <- IH.
Qed.

Lemma delete_set_fresh {A : Type} (o : Obj A) (k : string) (v : A) :
  own o k = None -> delete (set o k v) k = o.
Proof.
  intros Ho. unfold set. rewrite Ho.
  destruct (k =? "__proto__"); [now apply own_none_delete|].
  unfold delete. rewrite filter_app. simpl. rewrite String.eqb_refl. simpl.
  rewrite app_nil_r. now apply own_none_delete.
Qed.

(** Replacing a session by one with the same title and creation time
    leaves every summary as it was. *)
Lemma summary_replace (d : Doc) (k : string) (s c : Session) :
  own d k = Some s -> title c = title s -> createdAt c = createdAt s ->
  map summary (replace d k c) = map summary d.
Proof.
  intros Ho Ht Hc. induction d as [|[k0 v0] d IH]; simpl in *; [reflexivity|].
  destruct (k0 =? k); simpl.
  - injection Ho as ->. unfold summary; simpl. now rewrite Ht, Hc.
  - now rewrite IH.
Qed.

End ObjFacts.

Section Sorting.

Abbreviation newest := (fun a b : string * string * Z => (snd b - snd a)%Z).

Lemma sort_insert_perm {A : Type} (cmp : A -> A -> Z) (x : A) (l : list A) :
  Permutation (sort_insert cmp x l) (x :: l).
Proof.
  induction l as [|y l IH]; simpl; [reflexivity|].
  destruct (cmp x y >? 0)%Z; [|reflexivity].
  rewrite IH. apply perm_swap.
Qed.

Lemma sort_perm {A : Type} (cmp : A -> A -> Z) (l : list A) :
  Permutation (sort cmp l) l.
Proof.
  induction l as [|x l IH]; simpl; [reflexivity|].
  rewrite sort_insert_perm. now constructor.
Qed.

Lemma sort_insert_sorted (x : string * string * Z)
    (l : list (string * string * Z)) :
  StronglySorted newer_first l ->
  StronglySorted newer_first (sort_insert newest x l).
Proof.
  induction 1 as [|y l Hl IH Hy]; simpl.
  - repeat constructor.
  - destruct (Z.gtb_spec (snd y - snd x) 0).
    + constructor; [exact IH|].
      apply Forall_forall. intros z Hz. apply sort_insert_In in Hz as [->|Hz].
      * unfold newer_first. lia.
      * rewrite Forall_forall in Hy. now apply Hy.
    + constructor; [now constructor|].
      constructor; [unfold newer_first; lia|].
      eapply Forall_impl; [|exact Hy]. unfold newer_first. intros z. lia.
Qed.

Lemma sort_sorted (l : list (string * string * Z)) :
  StronglySorted newer_first (sort newest l).
Proof.
  induction l as [|x l IH]; simpl; [constructor|].
  now apply sort_insert_sorted.
Qed.

(** Inserting keeps the order among the entries of one timestamp: the
    new entry goes before them. *)
Lemma sort_insert_ties (c : Z) (x : string * string * Z)
    (l : list (string * string * Z)) :
  filter (fun e => (snd e =? c)%Z) (sort_insert newest x l)
  = filter (fun e => (snd e =? c)%Z) (x :: l).
Proof.
  induction l as [|y l IH]; [reflexivity|].
  cbn [sort_insert]. destruct (Z.gtb_spec (snd y - snd x) 0); [|reflexivity].
  cbn [filter] in *. rewrite IH.
  destruct (Z.eqb_spec (snd x) c), (Z.eqb_spec (snd y) c);
    try reflexivity; lia.
Qed.

Lemma sort_ties (c : Z) (l : list (string * string * Z)) :
  filter (fun e => (snd e =? c)%Z) (sort newest l)
  = filter (fun e => (snd e =? c)%Z) l.
Proof.
  induction l as [|x l IH]; [reflexivity|].
  cbn [sort fold_right]. fold (sort newest l).
  rewrite sort_insert_ties. cbn [filter]. now rewrite IH.
Qed.

End Sorting.

Section StoreOperations.
Import JS JSFacts ObjFacts.

Lemma createChat_run (uuid : string) (now : Z) (f : File) :
  createChat uuid now f =
  (Ret uuid,
   Some (set (stored f) uuid (mkSession "New Chat" now [greeting] "" None))).
Proof. unfold createChat, bind. now rewrite readData_run. Qed.

(** X1: [createChat] returns the id it was given by [randomUUID] and
    stores under it the seed session: title New Chat, the creation time,
    the greeting as the only message, empty memory and no forced mode,
    replacing whatever was stored under that id; every other session is
    as before. *)
Theorem createChat_stores_seed (uuid : string) (now : Z) (f : File) :
  uuid <> "__proto__" ->
  fst (createChat uuid now f) = Ret uuid /\
  own (stored (snd (createChat uuid now f))) uuid
  = Some (mkSession "New Chat" now [greeting] "" None) /\
  (forall other, other <> uuid ->
     own (stored (snd (createChat uuid now f))) other = own (stored f) other).
Proof.
  intros Hk. rewrite createChat_run. cbn [fst snd stored].
  split; [reflexivity|]. split; [now apply own_set|].
  intros other Ho. apply own_set_other. congruence.
Qed.

Lemma createChat_stores_seed_witness :
  own (stored (snd (createChat "c" 3000 (Some Sample.doc)))) "c"
  = Some (Sample.fresh 3000) /\
  own (stored (snd (createChat "c" 3000 (Some Sample.doc)))) "a"
  = Some (Sample.fresh 1000).
Proof.
  destruct (createChat_stores_seed "c" 3000 (Some Sample.doc))
    as (_ & Hnew & Hothers); [discriminate|].
  split; [exact Hnew|]. rewrite Hothers; [reflexivity | discriminate].
Defined.

(** X2: with an id that is not stored yet, [createChat] puts the new
    session after all the others, and the listing afterwards is the old
    listing with the new chat's summary added. *)
Theorem createChat_fresh_appends (uuid : string) (now : Z) (f : File) :
  own (stored f) uuid = None -> uuid <> "__proto__" ->
  stored (snd (createChat uuid now f))
  = (stored f ++ [(uuid, mkSession "New Chat" now [greeting] "" None)])%list /\
  Permutation (summaries (stored (snd (createChat uuid now f))))
    ((uuid, "New Chat", now) :: summaries (stored f)).
Proof.
  intros Ho Hk. rewrite createChat_run. cbn [snd stored].
  rewrite set_fresh by assumption. split; [reflexivity|].
  unfold summaries. rewrite !sort_perm, map_app. simpl.
  symmetry. apply Permutation_cons_append.
Qed.

Lemma createChat_fresh_appends_witness :
  stored (snd (createChat "c" 3000 None)) = [("c", Sample.fresh 3000)] /\
  Permutation (summaries (stored (snd (createChat "c" 3000 None))))
    [("c", "New Chat", 3000%Z)].
Proof.
  apply (createChat_fresh_appends "c" 3000 None); [reflexivity | discriminate].
Defined.

(** X3: the listing of [GET /api/chats] holds exactly the summaries of
    the stored sessions, none added or dropped, ordered by creation time
    with the newest first. *)
Theorem listing_newest_first (data : Doc) :
  StronglySorted newer_first (summaries data) /\
  Permutation (summaries data) (map summary data).
Proof.
  split; [apply sort_sorted | apply sort_perm].
Qed.

(** X4: sessions created at the same time are listed in the order in
    which they are stored. *)
Theorem listing_ties_keep_order (data : Doc) (c : Z) :
  filter (fun e => (snd e =? c)%Z) (summaries data)
  = filter (fun e => (snd e =? c)%Z) (map summary data).
Proof. apply sort_ties. Qed.

Lemma handleGet_run (chatId : string) (f : File) :
  handleGet chatId f =
  (match get (stored f) chatId with
   | Undefined => Ret GetStatus404
   | v => Ret (GetJson v)
   end, Some (stored f)).
Proof.
  unfold handleGet, bind. rewrite getChat_run.
  now destruct (get (stored f) chatId).
Qed.

(** X5: the reading operations, [getChat], [GET /api/chat/:chatId] and
    [GET /api/chats], leave the stored mapping as it is; an existing
    file is not touched, a missing one is created empty. *)
Theorem reads_leave_store (chatId : string) (f : File) :
  snd (getChat chatId f) = Some (stored f) /\
  snd (handleGet chatId f) = Some (stored f) /\
  snd (handleList f) = Some (stored f).
Proof.
  rewrite getChat_run, handleGet_run. unfold handleList, bind.
  now rewrite readData_run.
Qed.

(** X6: what [saveChat] stores under an id is what [getChat] then
    returns for it. *)
Theorem saveChat_getChat_round_trip
    (chatId : string) (chat : Session) (f : File) :
  chatId <> "__proto__" ->
  (saveChat chatId chat ;;; getChat chatId) f
  = (Ret (Own chat), Some (set (stored f) chatId chat)).
Proof.
  intros Hk. unfold bind. rewrite saveChat_run, getChat_run. cbn [stored].
  now rewrite (get_own _ _ _ (own_set _ _ chat Hk)).
Qed.

Lemma saveChat_getChat_round_trip_witness :
  (saveChat "a" (Sample.fresh 5) ;;; getChat "a") (Some Sample.doc)
  = (Ret (Own (Sample.fresh 5)),
     Some [("a", Sample.fresh 5); ("b", Sample.fresh 2000)]).
Proof.
  apply (saveChat_getChat_round_trip "a" (Sample.fresh 5) (Some Sample.doc)).
  discriminate.
Defined.

(** X7: saving twice under one id leaves the file as the second save
    alone would: the later write replaces the earlier one. *)
Theorem saveChat_last_write_wins
    (chatId : string) (chat chat' : Session) (f : File) :
  (saveChat chatId chat ;;; saveChat chatId chat') f
  = saveChat chatId chat' f.
Proof.
  unfold bind. rewrite !saveChat_run. cbn [stored]. now rewrite set_set.
Qed.

(** X8: a turn that is answered changes no entry of the chat listing and
    not its order. *)
Theorem turn_keeps_listing
    (provider : Provider) (chatId message : option string) (f f' : File)
    (reply mode : string) :
  handleTurn provider chatId message f = (Ret (ReplyJson reply mode), f') ->
  summaries (stored f') = summaries (stored f).
Proof.
  intros H. apply handleTurn_reply_inv in H
    as (id & text & s & _ & _ & _ & _ & Hs & _ & _ & ->).
  cbn [stored]. unfold summaries, set. rewrite Hs.
  change (fun kv : string * Session =>
            (fst kv, title (snd kv), createdAt (snd kv))) with summary.
  now rewrite (summary_replace _ _ s).
Qed.

Lemma turn_keeps_listing_witness :
  summaries
    (stored (snd (handleTurn (Sample.answering "Hello!")
                    (Some "a") (Some "hi") (Some Sample.doc))))
  = [("b", "New Chat", 2000%Z); ("a", "New Chat", 1000%Z)].
Proof.
  rewrite (turn_keeps_listing (Sample.answering "Hello!")
             (Some "a") (Some "hi") (Some Sample.doc)
             (snd (handleTurn (Sample.answering "Hello!")
                     (Some "a") (Some "hi") (Some Sample.doc)))
             "Hello!" "chat" eq_refl).
  reflexivity.
Defined.

(** X9: deleting under an id, stored or not, leaves every other session
    as it is and the remaining ids in their order. *)
Theorem deleteChat_frame (chatId : string) (f : File) :
  keys (stored (snd (deleteChat chatId f)))
  = filter (fun k => negb (k =? chatId)) (keys (stored f)) /\
  (forall other, other <> chatId ->
     own (stored (snd (deleteChat chatId f))) other = own (stored f) other).
Proof.
  rewrite deleteChat_run. rewrite <- keys_delete_filter.
  destruct (get (stored f) chatId) eqn:E; cbn [snd stored].
  - split; [reflexivity|]. intros other Ho. apply own_delete_other. congruence.
  - split; [reflexivity|]. intros other Ho. apply own_delete_other. congruence.
  - assert (Hn : own (stored f) chatId = None).
    { unfold get in E. destruct (own (stored f) chatId); [discriminate|].
      reflexivity. }
    rewrite (own_none_delete _ _ Hn). now split.
Qed.

(** X10: creating a chat under an id that is not stored and deleting it
    again gives back the stored mapping, and the delete reports success. *)
Theorem create_then_delete (uuid : string) (now : Z) (f : File) :
  own (stored f) uuid = None ->
  (id <- createChat uuid now ;; deleteChat id) f
  = (Ret true, Some (stored f)).
Proof.
  intros Ho. unfold bind. rewrite createChat_run, deleteChat_run.
  cbn [stored]. rewrite (delete_set_fresh _ _ _ Ho).
  unfold get, set. rewrite Ho.
  destruct (String.eqb_spec uuid "__proto__") as [->|Hk].
  - now rewrite Ho.
  - rewrite own_app_none by assumption. simpl.
    now rewrite String.eqb_refl.
Qed.

Lemma create_then_delete_witness :
  (id <- createChat "c" 3000 ;; deleteChat id) (Some Sample.doc)
  = (Ret true, Some Sample.doc).
Proof.
  apply (create_then_delete "c" 3000 (Some Sample.doc)). reflexivity.
Defined.

End StoreOperations.

(** ** More on the turn handler *)

Section TurnMore.
Import JS JSFacts ObjFacts.

Variable provider : Provider.

(** A forced mode that is [null] or the empty string is no forced mode. *)
Lemma selectMode_falsy (s : Session) (text : string) :
  truthy_opt (forcedMode s) = false -> selectMode s text = detectMode text.
Proof.
  unfold selectMode, or_else, truthy_opt.
  destruct (forcedMode s) as [m|]; [|reflexivity]. now intros ->.
Qed.


End TurnMore.

(** ** More on mode detection and the context *)

Section DetectionMore.
Import JS JSFacts.

Lemma detectMode_technical_iff (text : string) :
  detectMode text = "technical" <-> technical_trigger text.
Proof.
  rewrite <- technical_trigger_iff. unfold detectMode.
  destruct (existsb _ techKeywords); [tauto|].
  destruct (includes _ "short answer"); [split; discriminate|].
  destruct (_ || _); split; discriminate.
Qed.

Lemma string_app_assoc (a b c : string) : (a ++ b) ++ c = a ++ b ++ c.
Proof. induction a as [|x a IH]; simpl; [reflexivity | now rewrite IH]. Qed.

Lemma occurs_ci_extend (kw pre text post : string) :
  occurs_ci kw text -> occurs_ci kw (pre ++ text ++ post).
Proof.
  intros (a & w & b & -> & Hw).
  exists (pre ++ a), w, (b ++ post). split; [|exact Hw].
  now rewrite !string_app_assoc.
Qed.

(** X13: a technical keyword wins wherever it stands: text that is
    classified technical stays technical when anything is put before or
    after it, whatever other trigger words that adds. *)
Theorem technical_survives_extension (pre text post : string) :
  detectMode text = "technical" ->
  detectMode (pre ++ text ++ post) = "technical".
Proof.
  rewrite !detectMode_technical_iff.
  intros (kw & Hin & Hocc). exists kw. split; [exact Hin|].
  now apply occurs_ci_extend.
Qed.

Lemma technical_survives_extension_witness :
  detectMode ("Give me a short answer: " ++ "what is an API" ++ "? Define it.")
  = "technical".
Proof.
  apply (technical_survives_extension "Give me a short answer: "
           "what is an API" "? Define it.").
  reflexivity.
Defined.

Lemma slice_last_push {A : Type} (n : nat) (l : list A) (x : A) :
  slice_last (S n) (push l x) = (slice_last n l ++ [x])%list.
Proof.
  unfold slice_last, push. rewrite length_app, skipn_app. simpl.
  replace (List.length l + 1 - S n) with (List.length l - n) by lia.
  replace (List.length l - n - List.length l) with 0 by lia.
  reflexivity.
Qed.

(** X14: for a stored session whose mode names a profile, the provider
    is called once, with a request fixed by the session and the message:
    the model name, the profile's temperature and output limit, and as
    messages the system message, at most the last 11 stored messages and,
    last, the user message of this turn.  The reply is what the provider
    makes of that request. *)
Theorem provider_request_shape
    (chatId message : string) (s : Session) (p : Profile) (f : File) :
  truthy chatId = true -> truthy message = true ->
  own (stored f) chatId = Some s ->
  configOf s message = Own p ->
  exists request sys earlier recent,
    req_model request = "llama-3.3-70b-versatile" /\
    req_temperature request = Some (temperature p) /\
    req_max_tokens request = Some (max_tokens p) /\
    req_messages request
    = (sys :: recent ++ [mkMessage "user" message])%list /\
    role sys = "system" /\
    messages s = (earlier ++ recent)%list /\
    List.length recent = Nat.min 11 (List.length (messages s)) /\
    forall provider,
      fst (handleTurn provider (Some chatId) (Some message) f)
      = Ret (ReplyJson
               match provider request with
               | Body data => or_else (generated data) (fun _ => "")
               | _ => fallbackReply
               end
               (selectMode s message)).
Proof.
  intros Hc Hm Hs Hcfg.
  eexists (mkRequest _ (_ :: slice_last 11 (messages s) ++ [_])%list _ _),
    _, (firstn (List.length (messages s) - 11) (messages s)),
    (slice_last 11 (messages s)).
  do 4 (split; [reflexivity|]).
  split; [shelve|].
  split; [symmetry; apply slice_last_suffix|].
  split; [apply slice_last_length|].
  intros provider.
  rewrite (handleTurn_existing provider chatId message s f Hc Hm Hs).
  unfold replyOf. rewrite Hcfg. cbn [fst systemMessage field callGroq].
  unfold context. cbn [messages userTurn with_messages].
  rewrite slice_last_push. reflexivity.
  Unshelve. reflexivity.
Qed.

Lemma provider_request_shape_witness :
  fst (handleTurn Sample.silent (Some "a") (Some "hi") (Some Sample.doc))
  = Ret (ReplyJson "" "chat").
Proof.
  destruct (provider_request_shape "a" "hi" (Sample.fresh 1000)
              (mkProfile (8 # 10) 500
                 "You are Almas, a friendly AI created by Hussain. Be natural and conversational.")
              (Some Sample.doc) eq_refl eq_refl eq_refl eq_refl)
    as (request & sys & earlier & recent & _ & _ & _ & _ & _ & _ & _ & H).
  rewrite (H Sample.silent). reflexivity.
Defined.

End DetectionMore.

(** ** Two turns under any schedule *)

Section Races.
Import JS JSFacts ObjFacts.

Variable provider : Provider.



Variable d : Doc.
Variables id1 msg1 id2 msg2 : string.
Variables s1 s2 : Session.
Hypothesis distinct : id1 <> id2.
Hypothesis stored1 : own d id1 = Some s1.
Hypothesis stored2 : own d id2 = Some s2.

Local Abbreviation after :=
  (written d id1 (committed provider s1 msg1) id2 (committed provider s2 msg2)).
Local Abbreviation RInv := (race_inv provider d id1 msg1 s1 id2 msg2 s2).










End Races.


(** ** Operations in sequence *)

Section Sequences.
Import JS JSFacts ObjFacts.

Variable provider : Provider.

Lemma deleteChat_own_none (chatId : string) (f : File) :
  own (stored (snd (deleteChat chatId f))) chatId = None.
Proof.
  rewrite deleteChat_run.
  destruct (get (stored f) chatId) eqn:E; cbn [snd stored];
    try apply own_delete_same.
  unfold get in E. now destruct (own (stored f) chatId).
Qed.

(** X18: whatever [deleteChat] reports, afterwards nothing is stored
    under the id and the listing does not show it. *)
Theorem deleted_is_gone (chatId : string) (f : File) :
  own (stored (snd (deleteChat chatId f))) chatId = None /\
  ~ In chatId
      (map (fun e => fst (fst e))
         (summaries (stored (snd (deleteChat chatId f))))).
Proof.
  split; [apply deleteChat_own_none|].
  rewrite summaries_ids. apply own_none_keys, deleteChat_own_none.
Qed.

(** X19: a turn on a chat that has been deleted is answered 404 and
    stores nothing, for every id that is not the name of a member of
    [Object.prototype]. *)
Theorem turn_after_delete (chatId message : string) (f : File) :
  truthy chatId = true -> truthy message = true ->
  inherited chatId = false ->
  (deleted <- deleteChat chatId ;;
   handleTurn provider (Some chatId) (Some message)) f
  = (Ret Status404, Some (delete (stored f) chatId)).
Proof.
  intros Hc Hm Hi. unfold bind at 1.
  destruct (deleteChat chatId f) as [r f1] eqn:E.
  pose proof (deleteChat_own_none chatId f) as Hgone.
  rewrite E in Hgone. cbn [snd] in Hgone.
  assert (Hf1 : stored f1 = delete (stored f) chatId).
  { rewrite deleteChat_run in E.
    destruct (get (stored f) chatId) eqn:G; injection E as <- <-;
      try reflexivity.
    cbn [stored]. symmetry. apply own_none_delete.
    unfold get in G. now destruct (own (stored f) chatId). }
  assert (Hr : exists b, r = Ret b).
  { rewrite deleteChat_run in E.
    destruct (get (stored f) chatId); injection E as <- <-; eauto. }
  destruct Hr as [b ->].
  rewrite (handleTurn_unknown_id provider chatId message f1 Hc Hm Hgone Hi).
  now rewrite Hf1.
Qed.

End Sequences.

Lemma turn_after_delete_witness :
  (deleted <- deleteChat "a" ;;
   handleTurn (Sample.answering "Hello!") (Some "a") (Some "hi"))
    (Some Sample.doc)
  = (Ret Status404, Some [("b", Sample.fresh 2000)]).
Proof.
  apply (turn_after_delete (Sample.answering "Hello!") "a" "hi"
           (Some Sample.doc));
    reflexivity.
Defined.

(** ** The handler on any JSON body *)

Section PostChat.
Import JS JSFacts ObjFacts.

Variable provider : Provider.

(** The handler on a stored session, for any JSON values that pass the
    first test. *)
Lemma postChat_stored
    (chatId message : Json) (key : string) (s : Session) (f : File) :
  truthy_json chatId = true -> truthy_json message = true ->
  toPropertyKey chatId = Ret key ->
  own (stored f) key = Some s ->
  postChat provider (Some chatId) (Some message) f =
  match message with
  | JString text =>
      match configOf s text with
      | Undefined => (Throw TypeError, f)
      | _ =>
          (Ret (Responds
                  (ReplyJson (replyOf provider s text) (selectMode s text))),
           Some (set (stored f) key (committed provider s text)))
      end
  | _ =>
      match forcedMode s with
      | Some m =>
          if truthy m then
            match get MODES m with
            | Undefined => (Throw TypeError, f)
            | _ => (Ret NonStringTurn, f)
            end
          else (Throw TypeError, f)
      | None => (Throw TypeError, f)
      end
  end.
Proof.
  intros Hc Hm Hk Hs.
  unfold postChat. cbn [truthy_field]. rewrite Hc, Hm. cbn [negb orb].
  unfold bind at 1. rewrite readData_run, <- (own_stored_some _ _ _ Hs).
  unfold bind at 1. rewrite Hk. cbn [lift]. rewrite (get_own _ _ _ Hs).
  destruct message; cbn [truthy_json] in Hm; try discriminate;
    try (destruct (forcedMode s) as [m|]; [|reflexivity];
         destruct (truthy m); [|reflexivity];
         destruct (get MODES m); reflexivity).
  rename s0 into text.
  unfold committed, replyOf.
  fold (userTurn s text). fold (configOf s text).
  destruct (configOf s text); simpl; unfold bind, lift; simpl;
    rewrite ?saveChat_run; reflexivity.
Qed.

(** On fields that are strings or absent, [postChat] is [handleTurn]. *)
Lemma postChat_strings (chatId message : option string) (f : File) :
  postChat provider (as_json chatId) (as_json message) f =
  (match fst (handleTurn provider chatId message f) with
   | Ret r => Ret (Responds r)
   | Throw e => Throw e
   end,
   snd (handleTurn provider chatId message f)).
Proof.
  destruct chatId as [id|], message as [text|]; try reflexivity;
    cbn [as_json].
  - destruct (truthy id) eqn:Hc;
      [|unfold postChat, handleTurn; cbn [truthy_field truthy_json];
        rewrite Hc; reflexivity].
    destruct (truthy text) eqn:Hm;
      [|unfold postChat, handleTurn; cbn [truthy_field truthy_json];
        rewrite Hc, Hm; reflexivity].
    destruct (own (stored f) id) as [s|] eqn:Hs.
    + rewrite (handleTurn_existing provider id text s f Hc Hm Hs).
      rewrite (postChat_stored (JString id) (JString text) id s f
                 Hc Hm eq_refl Hs).
      destruct (configOf s text); reflexivity.
    + assert (E : postChat provider (Some (JString id))
                    (Some (JString text)) f
                  = (if inherited id then Throw TypeError
                     else Ret (Responds Status404), Some (stored f))).
      { unfold postChat. cbn [truthy_field truthy_json].
        rewrite Hc, Hm. cbn [negb orb]. unfold bind.
        rewrite readData_run. cbn [lift toPropertyKey].
        unfold get. rewrite Hs. destruct (inherited id); reflexivity. }
      rewrite E. destruct (inherited id) eqn:Hi.
      * now rewrite (handleTurn_inherited_id provider id text f Hc Hm Hs Hi).
      * now rewrite (handleTurn_unknown_id provider id text f Hc Hm Hs Hi).
  - unfold postChat, handleTurn. cbn [truthy_field truthy_json].
    now rewrite orb_true_r.
Qed.

(** X11: [POST /api/chat] answers 400 exactly when [chatId] or [message]
    is a falsy value, that is missing, [null], [false], the number 0 or
    the empty string, and then the data file is not even looked at. *)
Theorem invalid_request_iff (chatId message : option Json) (f : File) :
  (fst (postChat provider chatId message f) = Ret (Responds Status400) <->
   truthy_field chatId = false \/ truthy_field message = false) /\
  (truthy_field chatId = false \/ truthy_field message = false ->
   snd (postChat provider chatId message f) = f).
Proof.
  unfold postChat.
  destruct (truthy_field chatId) eqn:Hc;
    [|split; [split; [now left | reflexivity] | reflexivity]].
  destruct (truthy_field message) eqn:Hm;
    [|split; [split; [now right | reflexivity] | reflexivity]].
  cbn [negb orb].
  destruct chatId as [c|]; [|discriminate].
  destruct message as [m|]; [|discriminate].
  split; [split|]; try (intros [H|H]; discriminate).
  unfold bind at 1. rewrite readData_run.
  unfold bind at 1. destruct (toPropertyKey c) as [key|e];
    cbn [lift]; [|discriminate].
  destruct (get (stored f) key) as [s| |]; try discriminate.
  destruct m;
    try (destruct (forcedMode s) as [fm|]; [|discriminate];
         destruct (truthy fm); [|discriminate];
         destruct (get MODES fm); discriminate).
  destruct (get MODES _); simpl; unfold bind, lift; simpl;
    rewrite ?saveChat_run; discriminate.
Qed.

(** X12: on a stored session whose forced mode is [null] or the empty
    string, a turn whose message is a non-empty string is answered in
    the detected mode, one of the four keys of [MODES], and stored; a
    turn whose message is any other truthy value throws at
    [message.toLowerCase] and the file is left as it was. *)
Theorem automatic_mode_always_answers
    (chatId message : Json) (key : string) (s : Session) (f : File) :
  truthy_json chatId = true -> truthy_json message = true ->
  toPropertyKey chatId = Ret key ->
  own (stored f) key = Some s ->
  truthy_opt (forcedMode s) = false ->
  match message with
  | JString text =>
      postChat provider (Some chatId) (Some message) f
      = (Ret (Responds
                (ReplyJson (replyOf provider s text) (detectMode text))),
         Some (set (stored f) key (committed provider s text))) /\
      In (detectMode text) (keys MODES)
  | _ => postChat provider (Some chatId) (Some message) f = (Throw TypeError, f)
  end.
Proof.
  intros Hc Hm Hk Hs Hf.
  rewrite (postChat_stored chatId message key s f Hc Hm Hk Hs).
  destruct message;
    try (unfold truthy_opt in Hf; destruct (forcedMode s) as [m|];
         [rewrite Hf|]; reflexivity).
  rename s0 into text.
  destruct (detectMode_known text) as [p Hp].
  split; [|eapply own_some_keys; eauto].
  unfold configOf. rewrite selectMode_userTurn, (selectMode_falsy _ _ Hf).
  now rewrite (get_own _ _ _ Hp).
Qed.


(** X20: a chat can be used as soon as it is created: a first turn whose
    message is a non-empty string is answered in the detected mode, and
    the chat then holds the greeting, the user message and the reply,
    with the message as its memory; a first turn whose message is any
    other truthy value throws and leaves the chat as created. *)
Theorem turn_after_create
    (uuid : string) (message : Json) (now : Z) (f : File) :
  truthy uuid = true -> truthy_json message = true -> uuid <> "__proto__" ->
  match message with
  | JString text =>
      exists reply f',
        (chatId <- createChat uuid now ;;
         postChat provider (Some (JString chatId)) (Some message)) f
        = (Ret (Responds (ReplyJson reply (detectMode text))), f') /\
        own (stored f') uuid
        = Some (mkSession "New Chat" now
                  [greeting; mkMessage "user" text;
                   mkMessage "assistant" reply]
                  text None)
  | _ =>
      (chatId <- createChat uuid now ;;
       postChat provider (Some (JString chatId)) (Some message)) f
      = (Throw TypeError,
         Some (set (stored f) uuid
                 (mkSession "New Chat" now [greeting] "" None)))
  end.
Proof.
  intros Hc Hm Hk.
  set (seed := mkSession "New Chat" now [greeting] "" None).
  assert (Hs : own (stored (Some (set (stored f) uuid seed))) uuid = Some seed)
    by (cbn [stored]; now apply own_set).
  pose proof (postChat_stored (JString uuid) message uuid seed
                (Some (set (stored f) uuid seed)) Hc Hm eq_refl Hs) as H.
  destruct message; try discriminate;
    try (unfold bind; rewrite createChat_run; fold seed; exact H).
  rename s into text.
  exists (replyOf provider seed text),
    (Some (set (set (stored f) uuid seed) uuid
             (committed provider seed text))).
  unfold bind. rewrite createChat_run. fold seed. rewrite H.
  destruct (detectMode_known text) as [p Hp].
  unfold configOf. rewrite selectMode_userTurn.
  change (selectMode seed text) with (detectMode text).
  rewrite (get_own _ _ _ Hp).
  split; [reflexivity|].
  cbn [stored]. eapply own_set_same. exact Hs.
Qed.

End PostChat.

Lemma automatic_mode_always_answers_witness :
  postChat Sample.unavailable (Some (JString "a")) (Some (JNumber "123"))
    (Some [("a", mkSession "New Chat" 1000 [greeting] "" (Some ""))])
  = (Throw TypeError,
     Some [("a", mkSession "New Chat" 1000 [greeting] "" (Some ""))]) /\
  fst (postChat Sample.unavailable (Some (JNumber "7"))
         (Some (JString "what is SQL?"))
         (Some [("7", mkSession "New Chat" 1000 [greeting] "" None)]))
  = Ret (Responds (ReplyJson fallbackReply "technical")).
Proof.
  split.
  - apply (automatic_mode_always_answers Sample.unavailable
             (JString "a") (JNumber "123") "a"
             (mkSession "New Chat" 1000 [greeting] "" (Some ""))
             (Some [("a", mkSession "New Chat" 1000 [greeting] "" (Some ""))]));
      reflexivity.
  - destruct (automatic_mode_always_answers Sample.unavailable
                (JNumber "7") (JString "what is SQL?") "7"
                (mkSession "New Chat" 1000 [greeting] "" None)
                (Some [("7", mkSession "New Chat" 1000 [greeting] "" None)])
                eq_refl eq_refl eq_refl eq_refl eq_refl) as [H _].
    rewrite H. reflexivity.
Defined.


Lemma turn_after_create_witness :
  (exists reply f',
     (chatId <- createChat "c" 3000 ;;
      postChat Sample.unavailable (Some (JString chatId))
        (Some (JString "define entropy"))) None
     = (Ret (Responds (ReplyJson reply "exam")), f') /\
     JS.own (stored f') "c"
     = Some (mkSession "New Chat" 3000
               [greeting; mkMessage "user" "define entropy";
                mkMessage "assistant" reply]
               "define entropy" None)) /\
  (chatId <- createChat "c" 3000 ;;
   postChat Sample.unavailable (Some (JString chatId))
     (Some (JArray [JString "define entropy"]))) None
  = (Throw TypeError, Some [("c", Sample.fresh 3000)]).
Proof.
  split.
  - apply (turn_after_create Sample.unavailable "c"
             (JString "define entropy") 3000 None);
      [reflexivity | reflexivity | discriminate].
  - apply (turn_after_create Sample.unavailable "c"
             (JArray [JString "define entropy"]) 3000 None);
      [reflexivity | reflexivity | discriminate].
Defined.
